(** * E-IMZO gateway: a shallow embedding of [eimzo.py]

    The module [eimzo.py] wraps four HTTP operations of an external
    signing authority (class [EimzoServiceApi]) and builds two Django REST
    framework views on top of them ([SavePkcsView], [PkcsVerify]).

    Python objects are embedded as the inductive type [value]; dictionaries
    are finite maps.  The only effects of the module are outbound HTTP calls
    and raised exceptions: a computation is a function of the authority and
    of the list of calls made so far, and yields either a returned value or
    a raised exception together with the extended list of calls. *)

From Stdlib Require Import ZArith String Ascii List.
From stdpp Require Import base option gmap strings list fin_maps.

Set Warnings "-register-all".

Local Open Scope string_scope.
Local Open Scope list_scope.
Local Open Scope Z_scope.

(** ** Python objects *)

(** The objects the module handles: what [json()] and [request.data] produce
    ([None], booleans, numbers, strings, lists, dictionaries with string keys)
    and the [rest_framework.response.Response] objects the views build.  A
    float is kept as its literal: the module never inspects one. *)
Inductive value : Type :=
| VNone
| VBool (b : bool)
| VInt (z : Z)
| VFloat (lit : string)
| VStr (s : string)
| VList (l : list value)
| VDict (m : gmap string value)
| VResponse (data : value) (status : Z).

(** [x is None] and [x is False]: identity with the two singletons. *)
Definition is_None (v : value) : bool :=
  match v with VNone => true | _ => false end.

Definition is_False (v : value) : bool :=
  match v with VBool false => true | _ => false end.

(** Truth value of an optional string, as [if x:] computes it on the result
    of [dict.get]: [None] and the empty string are false. *)
Definition truthy (o : option string) : bool :=
  match o with
  | Some (String _ _) => true
  | Some EmptyString => false
  | None => false
  end.

(** The string an optional string holds; read only where it is [truthy]. *)
Definition the_str (o : option string) : string :=
  match o with Some s => s | None => EmptyString end.

(** [str] or [None] as an object. *)
Definition of_option_str (o : option string) : value :=
  match o with Some s => VStr s | None => VNone end.

(** ** Exceptions and outcomes *)

Inductive exn : Type :=
| ValidationError (detail : value) (code : option Z)
| AttributeError
| JSONDecodeError
| RequestException.

(** [rest_framework.exceptions.ValidationError.status_code] and
    [rest_framework.status]: the constants of the framework the module
    refers to.  An exception that is not an [APIException] is not handled by
    the framework and ends as a server error. *)
Definition HTTP_200_OK : Z := 200.
Definition HTTP_400_BAD_REQUEST : Z := 400.
Definition HTTP_406_NOT_ACCEPTABLE : Z := 406.
Definition HTTP_500_INTERNAL_SERVER_ERROR : Z := 500.

Definition status_code_of (e : exn) : Z :=
  match e with
  | ValidationError _ _ => HTTP_400_BAD_REQUEST
  | _ => HTTP_500_INTERNAL_SERVER_ERROR
  end.

Inductive outcome (A : Type) : Type :=
| Return (a : A)
| Raise (e : exn).
Arguments Return {A} a.
Arguments Raise {A} e.

(** ** The outbound side: the [requests] library and the authority *)

Module requests.

(** What the module reads of a [requests.Response]: [status_code], [text]
    and the result of [json()], [None] when the body is not JSON. *)
Record Response : Type := mkResponse {
  status_code : Z;
  text : string;
  json : option value
}.

(** One outbound call.  [data] is [VNone] for a call without a body. *)
Record Call : Type := mkCall {
  method : string;
  url : string;
  headers : gmap string value;
  data : value
}.

End requests.

(** The authority answers a call, possibly depending on the calls it has
    seen before; [None] is a transport failure. *)
Definition Authority : Type :=
  list requests.Call -> requests.Call -> option requests.Response.

(** A computation: reads the authority, extends the list of calls made. *)
Definition M (A : Type) : Type :=
  Authority -> list requests.Call -> outcome A * list requests.Call.

Definition ret {A} (a : A) : M A := fun _ calls => (Return a, calls).

Definition raise {A} (e : exn) : M A := fun _ calls => (Raise e, calls).

Definition bind {A B} (m : M A) (k : A -> M B) : M B :=
  fun auth calls =>
    match m auth calls with
    | (Return a, calls') => k a auth calls'
    | (Raise e, calls') => (Raise e, calls')
    end.

Declare Scope py_scope.
Delimit Scope py_scope with py.
Notation "x <- c1 ;; c2" := (bind c1 (fun x => c2))
  (at level 100, c1 at next level, right associativity) : py_scope.
Local Open Scope py_scope.

(** The result of a computation, and the calls made once it has ended. *)
Definition result_of {A} (m : M A) (auth : Authority) (calls : list requests.Call)
  : outcome A := fst (m auth calls).

Definition calls_of {A} (m : M A) (auth : Authority) (calls : list requests.Call)
  : list requests.Call := snd (m auth calls).

(** [requests.get(url, headers=...)] and [requests.post(url, data=..., headers=...)]:
    one call to the authority, recorded whether or not it is answered.  A
    call stands for one invocation of the library with the arguments the
    module gives it; the library's own refusal of arguments it cannot send (a
    number as body, a malformed header value) is not part of this model,
    which follows the module on the calls the library does send. *)
Definition send (c : requests.Call) : M requests.Response :=
  fun auth calls =>
    match auth calls c with
    | Some res => (Return res, calls ++ [c])
    | None => (Raise RequestException, calls ++ [c])
    end.

Definition requests_get (url : string) (headers : gmap string value)
  : M requests.Response :=
  send (requests.mkCall "GET" url headers VNone).

Definition requests_post (url : string) (data : value) (headers : gmap string value)
  : M requests.Response :=
  send (requests.mkCall "POST" url headers data).

(** The headers the library attaches among those it is given: an entry
    whose value is [None] is dropped before the request is sent. *)
Definition attached (headers : gmap string value) : gmap string value :=
  omap (fun v => if is_None v then None else Some v) headers.

(** [res.json()]. *)
Definition json_of (res : requests.Response) : M value :=
  match requests.json res with
  | Some v => ret v
  | None => raise JSONDecodeError
  end.

(** [d.get(key, default)]: only a dictionary has the method. *)
Definition dict_get (d : value) (key : string) (dflt : value) : M value :=
  match d with
  | VDict m => ret (default dflt (m !! key))
  | _ => raise AttributeError
  end.

(** ** The inbound side: the request of the framework *)

(** What the module reads of a [rest_framework.request.Request]: the WSGI
    variables, through [META] and through [environ], whose entries read here
    are strings, and the parsed body [data]. *)
Record Request : Type := mkRequest {
  META : gmap string string;
  environ : gmap string string;
  data : value
}.

(** ** class EimzoServiceApi *)

Module EimzoServiceApi.

Record t : Type := mk {
  VERIFY_URL : string;
  JOIN_URL : string;
  TIME_STAMP_URL : string;
  CHALLENGE_URL : string
}.

Definition __init__ : t := {|
  VERIFY_URL := "http://e-imzo-server:8080/backend/pkcs7/verify";
  JOIN_URL := "http://e-imzo-server:8080/frontend/pkcs7/join";
  TIME_STAMP_URL := "http://e-imzo-server:8080/frontend/timestamp/pkcs7";
  CHALLENGE_URL := "http://e-imzo-server:8080/frontend/challenge"
|}.

Definition get_user_ip (request : Request) : string :=
  let x_real_ip := META request !! "HTTP_X_REAL_IP" in
  let remote_addr := META request !! "REMOTE_ADDR" in
  if truthy x_real_ip then the_str x_real_ip
  else if truthy remote_addr then the_str remote_addr
  else "Unknown".

Definition get_headers (self : t) (request : Request) : gmap string value :=
  <["Host" := of_option_str (environ request !! "HTTP_HOST")]>
    (<["X-Real-IP" := VStr (get_user_ip request)]> ∅).

Definition eimzo_challenge (self : t) (request : Request)
  : M (Z * requests.Response) :=
  let url := CHALLENGE_URL self in
  let headers := get_headers self request in
  res <- requests_get url headers ;;
  ret (requests.status_code res, res).

Definition timestamp_pkcs7 (self : t) (pkcs7 : value) (request : Request)
  : M (Z * requests.Response) :=
  let time_stamp_url := TIME_STAMP_URL self in
  let headers := get_headers self request in
  res <- requests_post time_stamp_url pkcs7 headers ;;
  ret (requests.status_code res, res).

Definition eimzo_verify (self : t) (pkcs7wtst : value) (request : Request)
  : M (Z * requests.Response) :=
  let verify_url := VERIFY_URL self +:+ "/attached" in
  let headers := get_headers self request in
  res <- requests_post verify_url pkcs7wtst headers ;;
  ret (requests.status_code res, res).

Definition pkcs7_join (self : t) (pkcs7_data_1 pkcs7_data_2 : string)
    (request : Request) : M (Z * requests.Response) :=
  let data := pkcs7_data_1 +:+ "|" +:+ pkcs7_data_2 in
  let join_url := JOIN_URL self in
  let headers := get_headers self request in
  res <- requests_post join_url (VStr data) headers ;;
  ret (requests.status_code res, res).

End EimzoServiceApi.

Definition eimzo_service_api : EimzoServiceApi.t := EimzoServiceApi.__init__.

(** The dictionary [{"success": False, "err_msg": err_msg}] that the module
    writes at each of its error sites. *)
Definition failure_data (err_msg : value) : value :=
  VDict (<["success" := VBool false]> (<["err_msg" := err_msg]> ∅)).

(** What a [ValidationError] built from that dictionary holds as its detail,
    and what the framework sends as the body of the 400 answer: the
    framework keeps every leaf of a detail as its text, so the flag [False]
    is held as the string ["False"]; [err_msg], a string at every raise of
    the module, is held as it is.  A [Response] built from the dictionary
    keeps the boolean. *)
Definition error_detail (err_msg : value) : value :=
  VDict (<["success" := VStr "False"]> (<["err_msg" := err_msg]> ∅)).

(** ** class SavePkcsView *)

Module SavePkcsView.

Record t : Type := mk { request : Request }.

(** The permission classes of the view, by name. *)
Definition permission_classes : list string := ["IsAuthenticated"].

Definition timestamp_pkcs7 (self : t) (pkcs7 : value) : M value :=
  sr <- EimzoServiceApi.timestamp_pkcs7 eimzo_service_api pkcs7 (request self) ;;
  let status_code := fst sr in
  let resp := snd sr in
  if negb (status_code =? 200) then
    raise (ValidationError (error_detail (VStr (requests.text resp)))
                           (Some status_code))
  else
    data_json <- json_of resp ;;
    pkcs7b64 <- dict_get data_json "pkcs7b64" (VBool false) ;;
    if is_False pkcs7b64 then
      ret (VResponse (failure_data data_json) HTTP_406_NOT_ACCEPTABLE)
    else
      ret pkcs7b64.

Definition eimzo_verify (self : t) (pkcs7b64 : value) : M value :=
  sr <- EimzoServiceApi.eimzo_verify eimzo_service_api pkcs7b64 (request self) ;;
  let status_code := fst sr in
  let resp := snd sr in
  if negb (status_code =? 200) then
    raise (ValidationError (error_detail (VStr (requests.text resp)))
                           (Some status_code))
  else
    ret VNone.

Definition pkcs7_join (self : t) (pkcs7_data_1 pkcs7_data_2 : string) : M value :=
  sr <- EimzoServiceApi.pkcs7_join eimzo_service_api
          pkcs7_data_1 pkcs7_data_2 (request self) ;;
  let status_code := fst sr in
  let resp := snd sr in
  if negb (status_code =? 200) then
    raise (ValidationError (error_detail (VStr (requests.text resp)))
                           (Some status_code))
  else
    join_resp <- json_of resp ;;
    dict_get join_resp "pkcs7b64" VNone.

Definition post (self : t) (_request : Request) : M value :=
  ret VNone.

End SavePkcsView.

(** ** class PkcsVerify *)

Module PkcsVerify.

Record t : Type := mk { request : Request }.

Definition eimzo_verify (self : t) (pkcs7b64 : value) : M value :=
  sr <- EimzoServiceApi.eimzo_verify eimzo_service_api pkcs7b64 (request self) ;;
  let status_code := fst sr in
  let resp := snd sr in
  if negb (status_code =? 200) then
    raise (ValidationError (error_detail (VStr (requests.text resp)))
                           (Some status_code))
  else
    json_of resp.

(** [Response(data=json_resp)]: without a [status] the response keeps the
    framework's default, 200. *)
Definition post (self : t) (_request : Request) : M value :=
  pkcs7b64 <- dict_get (data (request self)) "pkcs7b64" VNone ;;
  if is_None pkcs7b64 then
    raise (ValidationError (error_detail (VStr "pkcs7b64 field is required")) None)
  else
    json_resp <- eimzo_verify self pkcs7b64 ;;
    ret (VResponse json_resp HTTP_200_OK).

End PkcsVerify.

(** ** Vocabulary of the specification *)

(** The identity policy in the specification's words: the forwarded
    source-IP field when present and non-empty, otherwise the peer address
    when present and non-empty, otherwise the sentinel. *)
Definition present_nonempty (o : option string) (s : string) : Prop :=
  o = Some s ∧ s ≠ EmptyString.

Definition absent_or_empty (o : option string) : Prop :=
  o = None ∨ o = Some EmptyString.

Inductive resolves (request : Request) : string -> Prop :=
| resolves_forwarded ip :
    present_nonempty (META request !! "HTTP_X_REAL_IP") ip ->
    resolves request ip
| resolves_peer ip :
    absent_or_empty (META request !! "HTTP_X_REAL_IP") ->
    present_nonempty (META request !! "REMOTE_ADDR") ip ->
    resolves request ip
| resolves_unknown :
    absent_or_empty (META request !! "HTTP_X_REAL_IP") ->
    absent_or_empty (META request !! "REMOTE_ADDR") ->
    resolves request "Unknown".

(** A fragment without the delimiter, as every base64 text is. *)
Fixpoint bar_free (s : string) : bool :=
  match s with
  | EmptyString => true
  | String c s' => negb (Ascii.eqb c "|") && bar_free s'
  end.

(** The four calls of the client, for the module's own client instance. *)
Definition challenge_call (request : Request) : requests.Call :=
  requests.mkCall "GET" (EimzoServiceApi.CHALLENGE_URL eimzo_service_api)
    (EimzoServiceApi.get_headers eimzo_service_api request) VNone.

Definition join_call (a b : string) (request : Request) : requests.Call :=
  requests.mkCall "POST" (EimzoServiceApi.JOIN_URL eimzo_service_api)
    (EimzoServiceApi.get_headers eimzo_service_api request)
    (VStr (a +:+ "|" +:+ b)).

Definition timestamp_call (pkcs7 : value) (request : Request) : requests.Call :=
  requests.mkCall "POST" (EimzoServiceApi.TIME_STAMP_URL eimzo_service_api)
    (EimzoServiceApi.get_headers eimzo_service_api request) pkcs7.

Definition verify_call (pkcs7 : value) (request : Request) : requests.Call :=
  requests.mkCall "POST"
    (EimzoServiceApi.VERIFY_URL eimzo_service_api +:+ "/attached")
    (EimzoServiceApi.get_headers eimzo_service_api request) pkcs7.

(** ** Concrete requests and authorities *)

(** An authority that gives one answer to every call. *)
Definition stub (res : requests.Response) : Authority := fun _ _ => Some res.

(** A request that came through a proxy, carrying an envelope. *)
Definition proxied_request : Request := {|
  META := <["HTTP_X_REAL_IP" := "10.0.0.5"]> (<["REMOTE_ADDR" := "192.168.1.1"]> ∅);
  environ := <["HTTP_HOST" := "gateway.example"]> ∅;
  data := VDict (<["pkcs7b64" := VStr "MIIB"]> ∅)
|}.

(** A request without any of the fields the module reads. *)
Definition bare_request : Request := {|
  META := ∅;
  environ := ∅;
  data := VDict ∅
|}.

(** The text of a JSON string literal. *)
Definition quoted (s : string) : string :=
  String (ascii_of_nat 34) (s +:+ String (ascii_of_nat 34) EmptyString).

(** An answer with status 200 and the body [{}]. *)
Definition empty_object_answer : requests.Response :=
  requests.mkResponse 200 "{}" (Some (VDict ∅)).

(** An answer with status 200 and the body [{"pkcs7b64": null}]. *)
Definition null_field_answer : requests.Response :=
  requests.mkResponse 200 ("{" +:+ quoted "pkcs7b64" +:+ ": null}")
    (Some (VDict (<["pkcs7b64" := VNone]> ∅))).

(** An answer with status 200 and the body [{"pkcs7b64": "MIIC"}]. *)
Definition envelope_answer : requests.Response :=
  requests.mkResponse 200
    ("{" +:+ quoted "pkcs7b64" +:+ ": " +:+ quoted "MIIC" +:+ "}")
    (Some (VDict (<["pkcs7b64" := VStr "MIIC"]> ∅))).

(** An answer with status 500 and a body that is not JSON. *)
Definition rejection_answer : requests.Response :=
  requests.mkResponse 500 "boom" None.

(** An authority that accepts the first call it sees and rejects the rest. *)
Definition first_call_only : Authority :=
  fun calls _ =>
    match calls with
    | [] => Some envelope_answer
    | _ :: _ => Some rejection_answer
    end.

(** A request whose body holds the field with [null] in it. *)
Definition null_field_request : Request := {|
  META := ∅;
  environ := ∅;
  data := VDict (<["pkcs7b64" := VNone]> ∅)
|}.

(** The objects Python takes for false, among those without a float. *)
Inductive false_like : value -> Prop :=
| false_like_None : false_like VNone
| false_like_False : false_like (VBool false)
| false_like_zero : false_like (VInt 0)
| false_like_str : false_like (VStr EmptyString)
| false_like_list : false_like (VList [])
| false_like_dict : false_like (VDict ∅).

(** The failure every stage raises on an answer that is not a 200. *)
Definition rejection (res : requests.Response) : exn :=
  ValidationError (error_detail (VStr (requests.text res)))
                  (Some (requests.status_code res)).

(** The outcome of the timestamp stage on a 200 without an envelope. *)
Definition ambiguous_success (body : value) : value :=
  VResponse (failure_data body) HTTP_406_NOT_ACCEPTABLE.

(** The failure of the verify-only endpoint on a body without the field. *)
Definition missing_field : exn :=
  ValidationError (error_detail (VStr "pkcs7b64 field is required")) None.

(** A failure names a stage when some entry of its detail holds the name. *)
Definition carries_stage (e : exn) (stage : string) : Prop :=
  match e with
  | ValidationError (VDict m) _ => ∃ k, m !! k = Some (VStr stage)
  | _ => False
  end.

(** Modelled from the spec: the sign-and-stamp composite, which the module
    leaves undefined (the [post] of [SavePkcsView] is empty).  It chains Join
    and Timestamp, feeding the joined envelope into the timestamp stage. *)
Definition sign_and_stamp (self : SavePkcsView.t) (a b : string) : M value :=
  joined <- SavePkcsView.pkcs7_join self a b ;;
  SavePkcsView.timestamp_pkcs7 self joined.

(** ** Further vocabulary: answers and bodies off the expected path *)

(** Whether an object is a dictionary, the only kind that has [get]. *)
Definition is_dict (v : value) : bool :=
  match v with VDict _ => true | _ => false end.

(** Whether an answer is a 200 whose body is a JSON object in which
    [pkcs7b64] is absent or is [false]. *)
Definition ambiguous_answer (res : requests.Response) : bool :=
  (requests.status_code res =? 200) &&
  match requests.json res with
  | Some (VDict m) =>
      match m !! "pkcs7b64" with
      | None | Some (VBool false) => true
      | Some _ => false
      end
  | _ => false
  end.

(** An authority that cannot be reached. *)
Definition unreachable : Authority := fun _ _ => None.

(** An answer with status 200 and a body that is not JSON. *)
Definition not_json_answer : requests.Response :=
  requests.mkResponse 200 "OK" None.

(** An answer with status 200 and the body [[]]. *)
Definition list_answer : requests.Response :=
  requests.mkResponse 200 "[]" (Some (VList [])).

(** A request whose body is a JSON list. *)
Definition list_body_request : Request := {|
  META := ∅;
  environ := ∅;
  data := VList []
|}.

(** * Properties *)

(** ** Running the client *)

Lemma send_run (c : requests.Call) (auth : Authority) (calls : list requests.Call) :
  send c auth calls =
    (match auth calls c with
     | Some res => Return res
     | None => Raise RequestException
     end, calls ++ [c]).
Proof. unfold send. destruct (auth calls c); reflexivity. Qed.

(** What the library attaches of the headers it is given. *)
Lemma attached_lookup (h : gmap string value) (k : string) :
  attached h !! k = match h !! k with
                    | Some VNone | None => None
                    | Some v => Some v
                    end.
Proof.
  unfold attached. rewrite lookup_omap.
  destruct (h !! k) as [v|]; [|reflexivity]. destruct v; reflexivity.
Qed.

(** ** Identity resolution *)

Lemma truthy_present (o : option string) :
  truthy o = true -> present_nonempty o (the_str o).
Proof.
  destruct o as [[|c s]|]; simpl; try discriminate.
  intros _. split; [reflexivity | discriminate].
Qed.

Lemma truthy_absent (o : option string) :
  truthy o = false -> absent_or_empty o.
Proof.
  destruct o as [[|c s]|]; simpl; try discriminate; intros _.
  - right; reflexivity.
  - left; reflexivity.
Qed.

Lemma present_not_absent (o : option string) (s : string) :
  present_nonempty o s -> absent_or_empty o -> False.
Proof.
  intros [-> Hs] [H | H]; [discriminate | congruence].
Qed.

Lemma present_unique (o : option string) (s s' : string) :
  present_nonempty o s -> present_nonempty o s' -> s = s'.
Proof. intros [H1 _] [H2 _]. congruence. Qed.

Lemma get_user_ip_resolves (request : Request) :
  resolves request (EimzoServiceApi.get_user_ip request).
Proof.
  unfold EimzoServiceApi.get_user_ip.
  destruct (truthy (META request !! "HTTP_X_REAL_IP")) eqn:Hx.
  - apply resolves_forwarded, truthy_present, Hx.
  - destruct (truthy (META request !! "REMOTE_ADDR")) eqn:Hr.
    + apply resolves_peer; [apply truthy_absent, Hx | apply truthy_present, Hr].
    + apply resolves_unknown; apply truthy_absent; assumption.
Qed.

Lemma resolves_functional (request : Request) (s s' : string) :
  resolves request s -> resolves request s' -> s = s'.
Proof.
  intros H H'.
  destruct H as [ip Hf | ip Ha Hp | Ha Hb];
    destruct H' as [ip' Hf' | ip' Ha' Hp' | Ha' Hb'];
    try reflexivity;
    try (eapply present_unique; eassumption);
    exfalso; eauto using present_not_absent.
Qed.

(** C4. Identity resolution is total and follows the policy: the value it
    returns is the forwarded source-IP field when that is present and
    non-empty, otherwise the peer address when that is present and
    non-empty, otherwise ["Unknown"]; and it returns nothing else. *)
Theorem get_user_ip_policy (request : Request) (ip : string) :
  resolves request ip <-> EimzoServiceApi.get_user_ip request = ip.
Proof.
  split.
  - intros H. eapply resolves_functional; [apply get_user_ip_resolves | exact H].
  - intros <-. apply get_user_ip_resolves.
Qed.

Lemma get_user_ip_policy_witness :
  EimzoServiceApi.get_user_ip proxied_request = "10.0.0.5"
  ∧ EimzoServiceApi.get_user_ip bare_request = "Unknown".
Proof.
  split.
  - apply (proj1 (get_user_ip_policy proxied_request "10.0.0.5")).
    apply resolves_forwarded. split; [reflexivity | discriminate].
  - apply (proj1 (get_user_ip_policy bare_request "Unknown")).
    apply resolves_unknown; left; reflexivity.
Defined.

(** ** The client: payloads and headers *)

(** The payload of a join determines the ordered pair of fragments. *)
Lemma join_payload_inj (a a' b b' : string) :
  bar_free a = true -> bar_free a' = true ->
  a +:+ "|" +:+ b = a' +:+ "|" +:+ b' -> a = a' ∧ b = b'.
Proof.
  revert a'. induction a as [|c a IH]; intros [|c' a'] Ha Ha' E; simpl in *.
  - injection E as E. auto.
  - injection E as Ec E. subst c'. discriminate Ha'.
  - injection E as Ec E. subst c. discriminate Ha.
  - injection E as Ec E. subst c'.
    apply andb_prop in Ha as [_ Ha]. apply andb_prop in Ha' as [_ Ha'].
    destruct (IH a' Ha Ha' E) as [-> ->]. auto.
Qed.

Lemma client_join_run (self : EimzoServiceApi.t) (a b : string)
    (request : Request) auth calls :
  let c := requests.mkCall "POST" (EimzoServiceApi.JOIN_URL self)
             (EimzoServiceApi.get_headers self request) (VStr (a +:+ "|" +:+ b)) in
  EimzoServiceApi.pkcs7_join self a b request auth calls =
    (match auth calls c with
     | Some res => Return (requests.status_code res, res)
     | None => Raise RequestException
     end, calls ++ [c]).
Proof.
  intros c. unfold EimzoServiceApi.pkcs7_join, requests_post, bind.
  rewrite send_run. fold c. destruct (auth calls c); reflexivity.
Qed.

Lemma client_timestamp_run (self : EimzoServiceApi.t) (pkcs7 : value)
    (request : Request) auth calls :
  let c := requests.mkCall "POST" (EimzoServiceApi.TIME_STAMP_URL self)
             (EimzoServiceApi.get_headers self request) pkcs7 in
  EimzoServiceApi.timestamp_pkcs7 self pkcs7 request auth calls =
    (match auth calls c with
     | Some res => Return (requests.status_code res, res)
     | None => Raise RequestException
     end, calls ++ [c]).
Proof.
  intros c. unfold EimzoServiceApi.timestamp_pkcs7, requests_post, bind.
  rewrite send_run. fold c. destruct (auth calls c); reflexivity.
Qed.

Lemma client_verify_run (self : EimzoServiceApi.t) (pkcs7wtst : value)
    (request : Request) auth calls :
  let c := requests.mkCall "POST" (EimzoServiceApi.VERIFY_URL self +:+ "/attached")
             (EimzoServiceApi.get_headers self request) pkcs7wtst in
  EimzoServiceApi.eimzo_verify self pkcs7wtst request auth calls =
    (match auth calls c with
     | Some res => Return (requests.status_code res, res)
     | None => Raise RequestException
     end, calls ++ [c]).
Proof.
  intros c. unfold EimzoServiceApi.eimzo_verify, requests_post, bind.
  rewrite send_run. fold c. destruct (auth calls c); reflexivity.
Qed.

Lemma client_challenge_run (self : EimzoServiceApi.t) (request : Request) auth calls :
  let c := requests.mkCall "GET" (EimzoServiceApi.CHALLENGE_URL self)
             (EimzoServiceApi.get_headers self request) VNone in
  EimzoServiceApi.eimzo_challenge self request auth calls =
    (match auth calls c with
     | Some res => Return (requests.status_code res, res)
     | None => Raise RequestException
     end, calls ++ [c]).
Proof.
  intros c. unfold EimzoServiceApi.eimzo_challenge, requests_get, bind.
  rewrite send_run. fold c. destruct (auth calls c); reflexivity.
Qed.

(** The view's join stage makes the client's join call and no other. *)
Lemma view_join_calls (self : SavePkcsView.t) (a b : string) auth calls :
  calls_of (SavePkcsView.pkcs7_join self a b) auth calls =
    calls ++ [join_call a b (SavePkcsView.request self)].
Proof.
  unfold calls_of, SavePkcsView.pkcs7_join, bind.
  rewrite client_join_run. fold (join_call a b (SavePkcsView.request self)).
  destruct (auth calls _) as [res|]; [|reflexivity]. simpl.
  destruct (negb _); [reflexivity|].
  unfold json_of. destruct (requests.json res) as [v|]; [|reflexivity].
  simpl. destruct v; reflexivity.
Qed.

(** C1. A join makes exactly one call, whose payload is the first fragment,
    one ['|'] and the second fragment, in the order the caller gave them, also
    when the two fragments are equal; for fragments that are base64 texts
    (no ['|'] inside) and differ, that payload is not the swapped one.  The
    join stage of the view sends the same call. *)
Theorem join_payload_order (self : EimzoServiceApi.t) (a b : string)
    (request : Request) (auth : Authority) (calls : list requests.Call) :
  calls_of (EimzoServiceApi.pkcs7_join self a b request) auth calls =
    calls ++ [requests.mkCall "POST" (EimzoServiceApi.JOIN_URL self)
                (EimzoServiceApi.get_headers self request)
                (VStr (a +:+ "|" +:+ b))]
  ∧ calls_of (SavePkcsView.pkcs7_join (SavePkcsView.mk request) a b) auth calls =
      calls ++ [join_call a b request]
  ∧ requests.data (join_call a b request) = VStr (a +:+ "|" +:+ b)
  ∧ (bar_free a = true -> bar_free b = true -> a ≠ b ->
     requests.data (join_call a b request) ≠ VStr (b +:+ "|" +:+ a)).
Proof.
  split; [|split; [|split]].
  - unfold calls_of. rewrite client_join_run. reflexivity.
  - apply view_join_calls.
  - reflexivity.
  - intros Ha Hb Hab E. simpl in E. injection E as E.
    destruct (join_payload_inj a b b a Ha Hb E) as [? _]. contradiction.
Qed.

Lemma join_payload_order_witness :
  calls_of (EimzoServiceApi.pkcs7_join eimzo_service_api "QUJD" "REVG" proxied_request)
      (stub (requests.mkResponse 200 "{}" (Some (VDict ∅)))) [] =
    [join_call "QUJD" "REVG" proxied_request]
  ∧ requests.data (join_call "QUJD" "REVG" proxied_request) = VStr "QUJD|REVG"
  ∧ requests.data (join_call "QUJD" "REVG" proxied_request) ≠ VStr "REVG|QUJD".
Proof.
  destruct (join_payload_order eimzo_service_api "QUJD" "REVG" proxied_request
              (stub (requests.mkResponse 200 "{}" (Some (VDict ∅)))) [])
    as (H1 & _ & H3 & H4).
  split; [exact H1 | split; [exact H3 |]].
  apply H4; [reflexivity | reflexivity | discriminate].
Defined.

(** The headers of a request that declares a host, and of one that does not. *)
Lemma get_headers_declared (self : EimzoServiceApi.t) (request : Request) (host : string) :
  environ request !! "HTTP_HOST" = Some host ->
  EimzoServiceApi.get_headers self request
  = <["Host" := VStr host]>
      (<["X-Real-IP" := VStr (EimzoServiceApi.get_user_ip request)]> ∅).
Proof. intros H. unfold EimzoServiceApi.get_headers. rewrite H. reflexivity. Qed.

Lemma get_headers_undeclared (self : EimzoServiceApi.t) (request : Request) :
  environ request !! "HTTP_HOST" = None ->
  EimzoServiceApi.get_headers self request
  = <["Host" := VNone]>
      (<["X-Real-IP" := VStr (EimzoServiceApi.get_user_ip request)]> ∅).
Proof. intros H. unfold EimzoServiceApi.get_headers. rewrite H. reflexivity. Qed.

(** C8, as stated, fails: a request that declares no host gives the
    challenge call a [Host] entry that is [None], which is not attached; the
    call goes out with one identity header and without [Host]. *)
Lemma no_declared_host_counterexample :
  environ bare_request !! "HTTP_HOST" = None
  ∧ calls_of (EimzoServiceApi.eimzo_challenge eimzo_service_api bare_request)
      (stub empty_object_answer) []
    = [challenge_call bare_request]
  ∧ requests.headers (challenge_call bare_request) !! "Host" = Some VNone
  ∧ attached (requests.headers (challenge_call bare_request)) !! "Host" = None
  ∧ size (attached (requests.headers (challenge_call bare_request))) = 1%nat.
Proof.
  split; [reflexivity | split; [| split; [reflexivity | split]]].
  - unfold calls_of. rewrite client_challenge_run. reflexivity.
  - rewrite attached_lookup. reflexivity.
  - cbn [challenge_call requests.headers].
    rewrite (get_headers_undeclared _ bare_request eq_refl).
    unfold attached. rewrite omap_insert_None by reflexivity.
    rewrite (omap_insert_Some _ _ _ _ (VStr (EimzoServiceApi.get_user_ip bare_request)))
      by reflexivity.
    rewrite omap_empty, delete_insert_ne by discriminate.
    rewrite delete_empty, map_size_insert_None by apply lookup_empty.
    rewrite map_size_empty. reflexivity.
Qed.

(** C8, amended. Each of the four operations of the client makes one call
    and gives it exactly the two entries [Host] and [X-Real-IP], built from
    the one request: [X-Real-IP] is the resolved source IP and is always
    attached.  When the request declares a host, [Host] is that host as it
    stands and both headers are attached; when it declares none, [Host] is
    [None] and is not attached, which leaves [X-Real-IP] alone. *)
Theorem identity_headers_on_every_call (self : EimzoServiceApi.t)
    (request : Request) (auth : Authority) (calls : list requests.Call) :
  (dom (EimzoServiceApi.get_headers self request) = {["Host"; "X-Real-IP"]}
   ∧ EimzoServiceApi.get_headers self request !! "X-Real-IP"
     = Some (VStr (EimzoServiceApi.get_user_ip request))
   ∧ attached (EimzoServiceApi.get_headers self request) !! "X-Real-IP"
     = Some (VStr (EimzoServiceApi.get_user_ip request))
   ∧ (∀ host, environ request !! "HTTP_HOST" = Some host ->
        EimzoServiceApi.get_headers self request !! "Host" = Some (VStr host)
        ∧ attached (EimzoServiceApi.get_headers self request) !! "Host"
          = Some (VStr host)
        ∧ size (attached (EimzoServiceApi.get_headers self request)) = 2%nat)
   ∧ (environ request !! "HTTP_HOST" = None ->
        EimzoServiceApi.get_headers self request !! "Host" = Some VNone
        ∧ attached (EimzoServiceApi.get_headers self request) !! "Host" = None
        ∧ size (attached (EimzoServiceApi.get_headers self request)) = 1%nat))
  ∧ (∃ c, calls_of (EimzoServiceApi.eimzo_challenge self request) auth calls
            = calls ++ [c]
          ∧ requests.headers c = EimzoServiceApi.get_headers self request)
  ∧ (∀ a b, ∃ c, calls_of (EimzoServiceApi.pkcs7_join self a b request) auth calls
            = calls ++ [c]
          ∧ requests.headers c = EimzoServiceApi.get_headers self request)
  ∧ (∀ pkcs7, ∃ c, calls_of (EimzoServiceApi.timestamp_pkcs7 self pkcs7 request) auth calls
            = calls ++ [c]
          ∧ requests.headers c = EimzoServiceApi.get_headers self request)
  ∧ (∀ pkcs7, ∃ c, calls_of (EimzoServiceApi.eimzo_verify self pkcs7 request) auth calls
            = calls ++ [c]
          ∧ requests.headers c = EimzoServiceApi.get_headers self request).
Proof.
  split; [|split; [|split; [|split]]].
  - assert (Hx : EimzoServiceApi.get_headers self request !! "X-Real-IP"
                 = Some (VStr (EimzoServiceApi.get_user_ip request))).
    { unfold EimzoServiceApi.get_headers.
      rewrite lookup_insert_ne; [apply lookup_insert_eq | discriminate]. }
    split; [|split; [exact Hx | split; [|split]]].
    + unfold EimzoServiceApi.get_headers.
      rewrite !dom_insert_L, dom_empty_L. set_solver.
    + rewrite attached_lookup, Hx. reflexivity.
    + intros host Hh. rewrite (get_headers_declared _ _ _ Hh).
      split; [apply lookup_insert_eq | split].
      * rewrite attached_lookup, lookup_insert_eq. reflexivity.
      * unfold attached.
        rewrite (omap_insert_Some _ _ _ _ (VStr host)) by reflexivity.
        rewrite (omap_insert_Some _ _ _ _ (VStr (EimzoServiceApi.get_user_ip request)))
          by reflexivity.
        rewrite omap_empty, map_size_insert_None.
        -- rewrite map_size_insert_None by apply lookup_empty.
           rewrite map_size_empty. reflexivity.
        -- rewrite lookup_insert_ne; [apply lookup_empty | discriminate].
    + intros Hh. rewrite (get_headers_undeclared _ _ Hh).
      split; [apply lookup_insert_eq | split].
      * rewrite attached_lookup, lookup_insert_eq. reflexivity.
      * unfold attached. rewrite omap_insert_None by reflexivity.
        rewrite (omap_insert_Some _ _ _ _ (VStr (EimzoServiceApi.get_user_ip request)))
          by reflexivity.
        rewrite omap_empty, delete_insert_ne by discriminate.
        rewrite delete_empty, map_size_insert_None by apply lookup_empty.
        rewrite map_size_empty. reflexivity.
  - eexists. unfold calls_of. rewrite client_challenge_run. split; reflexivity.
  - intros a b. eexists. unfold calls_of. rewrite client_join_run. split; reflexivity.
  - intros v. eexists. unfold calls_of. rewrite client_timestamp_run. split; reflexivity.
  - intros v. eexists. unfold calls_of. rewrite client_verify_run. split; reflexivity.
Qed.

Lemma identity_headers_on_every_call_witness :
  (EimzoServiceApi.get_headers eimzo_service_api proxied_request !! "Host"
   = Some (VStr "gateway.example")
   ∧ attached (EimzoServiceApi.get_headers eimzo_service_api proxied_request) !! "Host"
     = Some (VStr "gateway.example")
   ∧ size (attached (EimzoServiceApi.get_headers eimzo_service_api proxied_request))
     = 2%nat)
  ∧ (EimzoServiceApi.get_headers eimzo_service_api bare_request !! "Host" = Some VNone
     ∧ attached (EimzoServiceApi.get_headers eimzo_service_api bare_request) !! "Host"
       = None
     ∧ size (attached (EimzoServiceApi.get_headers eimzo_service_api bare_request))
       = 1%nat).
Proof.
  split.
  - destruct (identity_headers_on_every_call eimzo_service_api proxied_request
                (stub empty_object_answer) []) as [(_ & _ & _ & H & _) _].
    apply (H "gateway.example"). reflexivity.
  - destruct (identity_headers_on_every_call eimzo_service_api bare_request
                (stub empty_object_answer) []) as [(_ & _ & _ & _ & H) _].
    apply H. reflexivity.
Defined.

(** ** Running the stages *)

Lemma rejected_test (res : requests.Response) :
  requests.status_code res ≠ 200 ->
  negb (requests.status_code res =? 200) = true.
Proof. intros H. apply negb_true_iff, Z.eqb_neq, H. Qed.

Lemma accepted_test (res : requests.Response) :
  requests.status_code res = 200 ->
  negb (requests.status_code res =? 200) = false.
Proof. intros ->. reflexivity. Qed.

(** The timestamp stage on an answered call. *)
Lemma view_timestamp_run (self : SavePkcsView.t) (pkcs7 : value) auth calls res :
  auth calls (timestamp_call pkcs7 (SavePkcsView.request self)) = Some res ->
  SavePkcsView.timestamp_pkcs7 self pkcs7 auth calls =
    (if negb (requests.status_code res =? 200) then Raise (rejection res)
     else match requests.json res with
          | None => Raise JSONDecodeError
          | Some (VDict m) =>
              match m !! "pkcs7b64" with
              | None | Some (VBool false) =>
                  Return (ambiguous_success (VDict m))
              | Some v => Return v
              end
          | Some _ => Raise AttributeError
          end,
     calls ++ [timestamp_call pkcs7 (SavePkcsView.request self)]).
Proof.
  intros H. unfold SavePkcsView.timestamp_pkcs7, bind.
  rewrite client_timestamp_run.
  fold (timestamp_call pkcs7 (SavePkcsView.request self)). rewrite H.
  cbn [fst snd]. destruct (negb _); [reflexivity|].
  unfold json_of. destruct (requests.json res) as [v|]; [|reflexivity].
  destruct v; try reflexivity.
  unfold dict_get, ret. destruct (m !! "pkcs7b64") as [v|]; [|reflexivity].
  destruct v as [|[|]| | | | | |]; reflexivity.
Qed.

(** The join stage on an answered call. *)
Lemma view_join_run (self : SavePkcsView.t) (a b : string) auth calls res :
  auth calls (join_call a b (SavePkcsView.request self)) = Some res ->
  SavePkcsView.pkcs7_join self a b auth calls =
    (if negb (requests.status_code res =? 200) then Raise (rejection res)
     else match requests.json res with
          | None => Raise JSONDecodeError
          | Some (VDict m) =>
              match m !! "pkcs7b64" with
              | None => Return VNone
              | Some v => Return v
              end
          | Some _ => Raise AttributeError
          end,
     calls ++ [join_call a b (SavePkcsView.request self)]).
Proof.
  intros H. unfold SavePkcsView.pkcs7_join, bind.
  rewrite client_join_run.
  fold (join_call a b (SavePkcsView.request self)). rewrite H.
  cbn [fst snd]. destruct (negb _); [reflexivity|].
  unfold json_of. destruct (requests.json res) as [v|]; [|reflexivity].
  destruct v; try reflexivity.
  unfold dict_get, ret. destruct (m !! "pkcs7b64"); reflexivity.
Qed.

(** The verify stage of the compose view on an answered call. *)
Lemma view_verify_run (self : SavePkcsView.t) (pkcs7b64 : value) auth calls res :
  auth calls (verify_call pkcs7b64 (SavePkcsView.request self)) = Some res ->
  SavePkcsView.eimzo_verify self pkcs7b64 auth calls =
    (if negb (requests.status_code res =? 200) then Raise (rejection res)
     else Return VNone,
     calls ++ [verify_call pkcs7b64 (SavePkcsView.request self)]).
Proof.
  intros H. unfold SavePkcsView.eimzo_verify, bind.
  rewrite client_verify_run.
  fold (verify_call pkcs7b64 (SavePkcsView.request self)). rewrite H.
  cbn [fst snd]. destruct (negb _); reflexivity.
Qed.

(** The verify stage of the verify-only view, answered or not. *)
Lemma only_verify_run (self : PkcsVerify.t) (pkcs7b64 : value) auth calls :
  PkcsVerify.eimzo_verify self pkcs7b64 auth calls =
    (match auth calls (verify_call pkcs7b64 (PkcsVerify.request self)) with
     | None => Raise RequestException
     | Some res =>
         if negb (requests.status_code res =? 200) then Raise (rejection res)
         else match requests.json res with
              | None => Raise JSONDecodeError
              | Some v => Return v
              end
     end,
     calls ++ [verify_call pkcs7b64 (PkcsVerify.request self)]).
Proof.
  unfold PkcsVerify.eimzo_verify, bind.
  rewrite client_verify_run.
  fold (verify_call pkcs7b64 (PkcsVerify.request self)).
  destruct (auth calls _) as [res|]; [|reflexivity].
  cbn [fst snd]. destruct (negb _); [reflexivity|].
  unfold json_of. destruct (requests.json res); reflexivity.
Qed.

(** The detail of a raised failure: two entries, of which [err_msg] is the
    message given and [success] the text of [False]. *)
Lemma error_detail_entries (err_msg : value) :
  ∃ m, error_detail err_msg = VDict m
       ∧ dom m = {["success"; "err_msg"]}
       ∧ m !! "success" = Some (VStr "False")
       ∧ m !! "err_msg" = Some err_msg.
Proof.
  eexists. split; [reflexivity|]. split; [|split].
  - rewrite !dom_insert_L, dom_empty_L. set_solver.
  - apply lookup_insert_eq.
  - rewrite lookup_insert_ne; [apply lookup_insert_eq | discriminate].
Qed.

(** The data of the 406 response: the same two entries, [success] being the
    boolean. *)
Lemma failure_data_entries (err_msg : value) :
  ∃ m, failure_data err_msg = VDict m
       ∧ dom m = {["success"; "err_msg"]}
       ∧ m !! "success" = Some (VBool false)
       ∧ m !! "err_msg" = Some err_msg.
Proof.
  eexists. split; [reflexivity|]. split; [|split].
  - rewrite !dom_insert_L, dom_empty_L. set_solver.
  - apply lookup_insert_eq.
  - rewrite lookup_insert_ne; [apply lookup_insert_eq | discriminate].
Qed.

(** ** The timestamp stage *)

(** A false-like envelope field other than [False] itself is handed back as
    it is: only absence and [False] make the stage answer 406. *)
Lemma timestamp_false_like_passes (self : SavePkcsView.t) (pkcs7 : value)
    auth calls res body v :
  auth calls (timestamp_call pkcs7 (SavePkcsView.request self)) = Some res ->
  requests.status_code res = 200 ->
  requests.json res = Some (VDict body) ->
  body !! "pkcs7b64" = Some v -> false_like v -> v ≠ VBool false ->
  result_of (SavePkcsView.timestamp_pkcs7 self pkcs7) auth calls = Return v.
Proof.
  intros Hc Hs Hj Hv Hf Hne. unfold result_of.
  rewrite (view_timestamp_run _ _ _ _ _ Hc), (accepted_test _ Hs), Hj, Hv.
  destruct Hf; try reflexivity. contradiction.
Qed.

(** C2, as stated, fails: on a 200 whose body holds [null], a false-like
    object, in the envelope field, the stage returns that [None] and not the
    406 response. *)
Lemma timestamp_null_field_counterexample :
  requests.status_code null_field_answer = 200
  ∧ requests.json null_field_answer = Some (VDict (<["pkcs7b64" := VNone]> ∅))
  ∧ false_like VNone
  ∧ result_of (SavePkcsView.timestamp_pkcs7 (SavePkcsView.mk proxied_request) (VStr "MIIB"))
      (stub null_field_answer) [] = Return VNone
  ∧ result_of (SavePkcsView.timestamp_pkcs7 (SavePkcsView.mk proxied_request) (VStr "MIIB"))
      (stub null_field_answer) []
    ≠ Return (ambiguous_success (VDict (<["pkcs7b64" := VNone]> ∅))).
Proof.
  assert (E : result_of (SavePkcsView.timestamp_pkcs7 (SavePkcsView.mk proxied_request)
                (VStr "MIIB")) (stub null_field_answer) [] = Return VNone).
  { unfold result_of.
    rewrite (view_timestamp_run _ _ (stub null_field_answer) [] null_field_answer eq_refl).
    reflexivity. }
  split; [reflexivity | split; [reflexivity | split; [constructor | split]]].
  - exact E.
  - rewrite E. discriminate.
Qed.

(** C2, amended. When the authority answers the timestamp call with status
    200 and a JSON object, the stage returns the 406 response that carries
    the parsed body exactly when [pkcs7b64] is absent or is [false]: a
    returned object and not a raised rejection, with a status that is not
    200 and [success] false.  Any other value of the field, [null], 0 and
    the empty string among them, is returned as the envelope. *)
Theorem timestamp_ambiguous_success (self : SavePkcsView.t) (pkcs7 : value)
    (auth : Authority) (calls : list requests.Call)
    (res : requests.Response) (body : gmap string value) :
  auth calls (timestamp_call pkcs7 (SavePkcsView.request self)) = Some res ->
  requests.status_code res = 200 ->
  requests.json res = Some (VDict body) ->
  (body !! "pkcs7b64" = None ∨ body !! "pkcs7b64" = Some (VBool false) ->
     result_of (SavePkcsView.timestamp_pkcs7 self pkcs7) auth calls
       = Return (VResponse (failure_data (VDict body)) HTTP_406_NOT_ACCEPTABLE)
     ∧ (∀ e, result_of (SavePkcsView.timestamp_pkcs7 self pkcs7) auth calls ≠ Raise e)
     ∧ HTTP_406_NOT_ACCEPTABLE ≠ HTTP_200_OK
     ∧ (∃ m, failure_data (VDict body) = VDict m
             ∧ m !! "success" = Some (VBool false)
             ∧ m !! "err_msg" = Some (VDict body)))
  ∧ (∀ v, body !! "pkcs7b64" = Some v -> v ≠ VBool false ->
     result_of (SavePkcsView.timestamp_pkcs7 self pkcs7) auth calls = Return v).
Proof.
  intros Hc Hs Hj. split.
  - intros Hb.
    assert (E : result_of (SavePkcsView.timestamp_pkcs7 self pkcs7) auth calls
                = Return (ambiguous_success (VDict body))).
    { unfold result_of.
      rewrite (view_timestamp_run _ _ _ _ _ Hc), (accepted_test _ Hs), Hj.
      destruct Hb as [-> | ->]; reflexivity. }
    split; [exact E | split; [| split]].
    + intros e. rewrite E. discriminate.
    + discriminate.
    + destruct (failure_data_entries (VDict body)) as (m & Hm & _ & H1 & H2).
      exists m. auto.
  - intros v Hv Hne. unfold result_of.
    rewrite (view_timestamp_run _ _ _ _ _ Hc), (accepted_test _ Hs), Hj, Hv.
    destruct v as [|[|]| | | | | |]; try reflexivity. contradiction.
Qed.

Lemma timestamp_ambiguous_success_witness :
  result_of (SavePkcsView.timestamp_pkcs7 (SavePkcsView.mk proxied_request) (VStr "MIIB"))
    (stub empty_object_answer) []
  = Return (VResponse (failure_data (VDict ∅)) HTTP_406_NOT_ACCEPTABLE)
  ∧ result_of (SavePkcsView.timestamp_pkcs7 (SavePkcsView.mk proxied_request) (VStr "MIIB"))
      (stub null_field_answer) []
    = Return VNone
  ∧ result_of (SavePkcsView.timestamp_pkcs7 (SavePkcsView.mk proxied_request) (VStr "MIIB"))
      (stub envelope_answer) []
    = Return (VStr "MIIC").
Proof.
  split; [|split].
  - destruct (timestamp_ambiguous_success (SavePkcsView.mk proxied_request) (VStr "MIIB")
                (stub empty_object_answer) [] empty_object_answer ∅
                eq_refl eq_refl eq_refl) as [H _].
    destruct H as [H _]; [left; reflexivity | exact H].
  - destruct (timestamp_ambiguous_success (SavePkcsView.mk proxied_request) (VStr "MIIB")
                (stub null_field_answer) [] null_field_answer
                (<["pkcs7b64" := VNone]> ∅) eq_refl eq_refl eq_refl) as [_ H].
    apply H; [reflexivity | discriminate].
  - destruct (timestamp_ambiguous_success (SavePkcsView.mk proxied_request) (VStr "MIIB")
                (stub envelope_answer) [] envelope_answer
                (<["pkcs7b64" := VStr "MIIC"]> ∅) eq_refl eq_refl eq_refl) as [_ H].
    apply H; [reflexivity | discriminate].
Defined.

(** C9. On an answered timestamp call, a status that is not 200 is raised,
    so that whatever follows the stage is not run; on a 200 with a JSON
    object the stage returns a value, the 406 response when the envelope
    field is absent or [false] and the field's value otherwise, and in both
    cases whatever follows the stage is run on that value. *)
Theorem timestamp_ambiguous_is_returned (self : SavePkcsView.t) (pkcs7 : value)
    (auth : Authority) (calls : list requests.Call) (res : requests.Response) :
  auth calls (timestamp_call pkcs7 (SavePkcsView.request self)) = Some res ->
  (requests.status_code res ≠ 200 ->
     ∀ B (k : value -> M B),
       (x <- SavePkcsView.timestamp_pkcs7 self pkcs7 ;; k x) auth calls
       = (Raise (rejection res),
          calls ++ [timestamp_call pkcs7 (SavePkcsView.request self)]))
  ∧ (requests.status_code res = 200 ->
     ∀ body, requests.json res = Some (VDict body) ->
       (body !! "pkcs7b64" = None ∨ body !! "pkcs7b64" = Some (VBool false) ->
          SavePkcsView.timestamp_pkcs7 self pkcs7 auth calls
          = (Return (ambiguous_success (VDict body)),
             calls ++ [timestamp_call pkcs7 (SavePkcsView.request self)])
          ∧ ∀ B (k : value -> M B),
              (x <- SavePkcsView.timestamp_pkcs7 self pkcs7 ;; k x) auth calls
              = k (ambiguous_success (VDict body)) auth
                  (calls ++ [timestamp_call pkcs7 (SavePkcsView.request self)]))
       ∧ (∀ v, body !! "pkcs7b64" = Some v -> v ≠ VBool false ->
          SavePkcsView.timestamp_pkcs7 self pkcs7 auth calls
          = (Return v, calls ++ [timestamp_call pkcs7 (SavePkcsView.request self)])
          ∧ ∀ B (k : value -> M B),
              (x <- SavePkcsView.timestamp_pkcs7 self pkcs7 ;; k x) auth calls
              = k v auth
                  (calls ++ [timestamp_call pkcs7 (SavePkcsView.request self)]))).
Proof.
  intros Hc. split.
  - intros Hs B k. unfold bind.
    rewrite (view_timestamp_run _ _ _ _ _ Hc), (rejected_test _ Hs). reflexivity.
  - intros Hs body Hj. split.
    + intros Hb.
      assert (E : SavePkcsView.timestamp_pkcs7 self pkcs7 auth calls
                  = (Return (ambiguous_success (VDict body)),
                     calls ++ [timestamp_call pkcs7 (SavePkcsView.request self)])).
      { rewrite (view_timestamp_run _ _ _ _ _ Hc), (accepted_test _ Hs), Hj.
        destruct Hb as [-> | ->]; reflexivity. }
      split; [exact E|]. intros B k. unfold bind. rewrite E. reflexivity.
    + intros v Hv Hne.
      assert (E : SavePkcsView.timestamp_pkcs7 self pkcs7 auth calls
                  = (Return v,
                     calls ++ [timestamp_call pkcs7 (SavePkcsView.request self)])).
      { rewrite (view_timestamp_run _ _ _ _ _ Hc), (accepted_test _ Hs), Hj, Hv.
        destruct v as [|[|]| | | | | |]; try reflexivity. contradiction. }
      split; [exact E|]. intros B k. unfold bind. rewrite E. reflexivity.
Qed.

Lemma timestamp_ambiguous_is_returned_witness :
  (SavePkcsView.timestamp_pkcs7 (SavePkcsView.mk proxied_request) (VStr "MIIB")
     (stub empty_object_answer) []
   = (Return (ambiguous_success (VDict ∅)), [timestamp_call (VStr "MIIB") proxied_request]))
  ∧ (SavePkcsView.timestamp_pkcs7 (SavePkcsView.mk proxied_request) (VStr "MIIB")
       (stub envelope_answer) []
     = (Return (VStr "MIIC"), [timestamp_call (VStr "MIIB") proxied_request]))
  ∧ ((x <- SavePkcsView.timestamp_pkcs7 (SavePkcsView.mk proxied_request) (VStr "MIIB") ;;
      SavePkcsView.eimzo_verify (SavePkcsView.mk proxied_request) x)
       (stub rejection_answer) []
     = (Raise (rejection rejection_answer), [timestamp_call (VStr "MIIB") proxied_request])).
Proof.
  split; [|split].
  - destruct (timestamp_ambiguous_is_returned (SavePkcsView.mk proxied_request)
                (VStr "MIIB") (stub empty_object_answer) [] empty_object_answer eq_refl)
      as [_ H].
    destruct (H eq_refl ∅ eq_refl) as [H1 _].
    apply H1. left. reflexivity.
  - destruct (timestamp_ambiguous_is_returned (SavePkcsView.mk proxied_request)
                (VStr "MIIB") (stub envelope_answer) [] envelope_answer eq_refl)
      as [_ H].
    destruct (H eq_refl _ eq_refl) as [_ H2].
    apply (H2 (VStr "MIIC")); [reflexivity | discriminate].
  - destruct (timestamp_ambiguous_is_returned (SavePkcsView.mk proxied_request)
                (VStr "MIIB") (stub rejection_answer) [] rejection_answer eq_refl)
      as [H _].
    apply H. discriminate.
Defined.

(** ** The verify stage *)

(** C5, as stated, fails: on a 500 the failure of the verify stage holds the
    raw body and the status, and nothing in it names the stage; the
    timestamp stage raises the very same failure on the same answer. *)
Lemma verify_rejection_names_no_stage_counterexample :
  result_of (PkcsVerify.eimzo_verify (PkcsVerify.mk proxied_request) (VStr "MIIB"))
    (stub rejection_answer) []
  = Raise (ValidationError
             (VDict (<["success" := VStr "False"]> (<["err_msg" := VStr "boom"]> ∅)))
             (Some 500))
  ∧ ¬ carries_stage
        (ValidationError
           (VDict (<["success" := VStr "False"]> (<["err_msg" := VStr "boom"]> ∅)))
           (Some 500))
        "verify"
  ∧ result_of (SavePkcsView.timestamp_pkcs7 (SavePkcsView.mk proxied_request) (VStr "MIIB"))
      (stub rejection_answer) []
    = result_of (PkcsVerify.eimzo_verify (PkcsVerify.mk proxied_request) (VStr "MIIB"))
        (stub rejection_answer) [].
Proof.
  split; [|split].
  - unfold result_of. rewrite only_verify_run. reflexivity.
  - intros [k Hk]. simpl in Hk.
    rewrite lookup_insert in Hk. case_decide; [discriminate|].
    rewrite lookup_insert in Hk. case_decide; [discriminate|].
    rewrite lookup_empty in Hk. discriminate.
  - unfold result_of. rewrite only_verify_run.
    rewrite (view_timestamp_run _ _ (stub rejection_answer) [] rejection_answer eq_refl).
    reflexivity.
Qed.

(** C5, amended. When the authority answers the verify call with a status
    that is not 200, the verify stage of either view makes that one call and
    raises a [ValidationError], which the framework reports with status 400:
    its detail has the entries [success] and [err_msg] and no other, [err_msg]
    being the raw body of the answer, and its code is the status of the
    answer.  It names no stage: the timestamp stage raises the same failure
    on the same answer. *)
Theorem verify_rejection (request : Request) (pkcs7 : value)
    (auth : Authority) (calls : list requests.Call) (res : requests.Response) :
  auth calls (verify_call pkcs7 request) = Some res ->
  requests.status_code res ≠ 200 ->
  PkcsVerify.eimzo_verify (PkcsVerify.mk request) pkcs7 auth calls
    = (Raise (ValidationError (error_detail (VStr (requests.text res)))
                (Some (requests.status_code res))),
       calls ++ [verify_call pkcs7 request])
  ∧ SavePkcsView.eimzo_verify (SavePkcsView.mk request) pkcs7 auth calls
    = (Raise (ValidationError (error_detail (VStr (requests.text res)))
                (Some (requests.status_code res))),
       calls ++ [verify_call pkcs7 request])
  ∧ status_code_of (ValidationError (error_detail (VStr (requests.text res)))
                      (Some (requests.status_code res))) = HTTP_400_BAD_REQUEST
  ∧ (∃ m, error_detail (VStr (requests.text res)) = VDict m
          ∧ dom m = {["success"; "err_msg"]}
          ∧ m !! "err_msg" = Some (VStr (requests.text res)))
  ∧ (∀ envelope auth' calls',
       auth' calls' (timestamp_call envelope request) = Some res ->
       result_of (SavePkcsView.timestamp_pkcs7 (SavePkcsView.mk request) envelope)
         auth' calls'
       = Raise (ValidationError (error_detail (VStr (requests.text res)))
                  (Some (requests.status_code res)))).
Proof.
  intros Hc Hs. split; [|split; [|split; [|split]]].
  - rewrite only_verify_run. cbn [PkcsVerify.request].
    rewrite Hc, (rejected_test _ Hs). reflexivity.
  - rewrite (view_verify_run (SavePkcsView.mk request) _ _ _ _ Hc).
    rewrite (rejected_test _ Hs). reflexivity.
  - reflexivity.
  - destruct (error_detail_entries (VStr (requests.text res)))
      as (m & Hm & Hd & _ & He).
    exists m. auto.
  - intros envelope auth' calls' Hc'. unfold result_of.
    rewrite (view_timestamp_run (SavePkcsView.mk request) _ _ _ _ Hc').
    rewrite (rejected_test _ Hs). reflexivity.
Qed.

Lemma verify_rejection_witness :
  PkcsVerify.eimzo_verify (PkcsVerify.mk proxied_request) (VStr "MIIB")
    (stub rejection_answer) []
  = (Raise (ValidationError (error_detail (VStr "boom")) (Some 500)),
     [verify_call (VStr "MIIB") proxied_request]).
Proof.
  apply (verify_rejection proxied_request (VStr "MIIB") (stub rejection_answer) []
           rejection_answer).
  - reflexivity.
  - discriminate.
Defined.

(** C10. On a verify call answered with status 200 and a JSON body, the
    verify stage of the compose view returns [None] and drops the parsed
    body, the verify stage of the verify-only view returns the parsed body,
    and both have made the same single call; so the two differ whenever the
    body is not [null]. *)
Theorem verify_wrappers_differ (request : Request) (pkcs7 : value)
    (auth : Authority) (calls : list requests.Call)
    (res : requests.Response) (payload : value) :
  auth calls (verify_call pkcs7 request) = Some res ->
  requests.status_code res = 200 ->
  requests.json res = Some payload ->
  SavePkcsView.eimzo_verify (SavePkcsView.mk request) pkcs7 auth calls
    = (Return VNone, calls ++ [verify_call pkcs7 request])
  ∧ PkcsVerify.eimzo_verify (PkcsVerify.mk request) pkcs7 auth calls
    = (Return payload, calls ++ [verify_call pkcs7 request])
  ∧ (payload ≠ VNone ->
     result_of (SavePkcsView.eimzo_verify (SavePkcsView.mk request) pkcs7) auth calls
     ≠ result_of (PkcsVerify.eimzo_verify (PkcsVerify.mk request) pkcs7) auth calls).
Proof.
  intros Hc Hs Hj.
  assert (E1 : SavePkcsView.eimzo_verify (SavePkcsView.mk request) pkcs7 auth calls
               = (Return VNone, calls ++ [verify_call pkcs7 request])).
  { rewrite (view_verify_run (SavePkcsView.mk request) _ _ _ _ Hc).
    rewrite (accepted_test _ Hs). reflexivity. }
  assert (E2 : PkcsVerify.eimzo_verify (PkcsVerify.mk request) pkcs7 auth calls
               = (Return payload, calls ++ [verify_call pkcs7 request])).
  { rewrite only_verify_run. cbn [PkcsVerify.request].
    rewrite Hc, (accepted_test _ Hs), Hj. reflexivity. }
  split; [exact E1 | split; [exact E2 |]].
  intros Hne. unfold result_of. rewrite E1, E2. cbn [fst].
  intros E. injection E as E. congruence.
Qed.

Lemma verify_wrappers_differ_witness :
  result_of (SavePkcsView.eimzo_verify (SavePkcsView.mk proxied_request) (VStr "MIIB"))
    (stub empty_object_answer) []
  ≠ result_of (PkcsVerify.eimzo_verify (PkcsVerify.mk proxied_request) (VStr "MIIB"))
      (stub empty_object_answer) [].
Proof.
  apply (verify_wrappers_differ proxied_request (VStr "MIIB") (stub empty_object_answer) []
           empty_object_answer (VDict ∅)).
  - reflexivity.
  - reflexivity.
  - reflexivity.
  - discriminate.
Defined.

(** ** The join stage *)

(** C6. When the authority answers the join call with status 200 and a JSON
    object, the join stage returns the value of [pkcs7b64] when the object
    has one and [None] when it has none: it raises nothing and builds no 406
    response, whereas the timestamp stage answers the same body with the 406
    response. *)
Theorem join_tolerates_absence (self : SavePkcsView.t) (a b : string)
    (auth : Authority) (calls : list requests.Call)
    (res : requests.Response) (body : gmap string value) :
  auth calls (join_call a b (SavePkcsView.request self)) = Some res ->
  requests.status_code res = 200 ->
  requests.json res = Some (VDict body) ->
  (∀ v, body !! "pkcs7b64" = Some v ->
     SavePkcsView.pkcs7_join self a b auth calls
     = (Return v, calls ++ [join_call a b (SavePkcsView.request self)]))
  ∧ (body !! "pkcs7b64" = None ->
     SavePkcsView.pkcs7_join self a b auth calls
     = (Return VNone, calls ++ [join_call a b (SavePkcsView.request self)])
     ∧ ∀ envelope auth' calls',
         auth' calls' (timestamp_call envelope (SavePkcsView.request self)) = Some res ->
         result_of (SavePkcsView.timestamp_pkcs7 self envelope) auth' calls'
         = Return (VResponse (failure_data (VDict body)) HTTP_406_NOT_ACCEPTABLE)).
Proof.
  intros Hc Hs Hj. split.
  - intros v Hv.
    rewrite (view_join_run _ _ _ _ _ _ Hc), (accepted_test _ Hs), Hj, Hv.
    reflexivity.
  - intros Hn. split.
    + rewrite (view_join_run _ _ _ _ _ _ Hc), (accepted_test _ Hs), Hj, Hn.
      reflexivity.
    + intros envelope auth' calls' Hc'. unfold result_of.
      rewrite (view_timestamp_run _ _ _ _ _ Hc'), (accepted_test _ Hs), Hj, Hn.
      reflexivity.
Qed.

Lemma join_tolerates_absence_witness :
  (SavePkcsView.pkcs7_join (SavePkcsView.mk proxied_request) "QUJD" "REVG"
     (stub empty_object_answer) []
   = (Return VNone, [join_call "QUJD" "REVG" proxied_request]))
  ∧ (SavePkcsView.pkcs7_join (SavePkcsView.mk proxied_request) "QUJD" "REVG"
       (stub envelope_answer) []
     = (Return (VStr "MIIC"), [join_call "QUJD" "REVG" proxied_request])).
Proof.
  split.
  - destruct (join_tolerates_absence (SavePkcsView.mk proxied_request) "QUJD" "REVG"
                (stub empty_object_answer) [] empty_object_answer ∅
                eq_refl eq_refl eq_refl) as [_ H].
    destruct (H eq_refl) as [H1 _]. exact H1.
  - destruct (join_tolerates_absence (SavePkcsView.mk proxied_request) "QUJD" "REVG"
                (stub envelope_answer) [] envelope_answer _
                eq_refl eq_refl eq_refl) as [H _].
    apply (H (VStr "MIIC")). reflexivity.
Defined.

(** ** Chaining the stages *)

(** C7. A join call answered with a status that is not 200 raises the
    rejection after that one call, whatever is chained after the join stage:
    the composite makes no timestamp call and returns nothing.  When the join
    is answered with a 200 and a JSON object, and the timestamp call on the
    joined envelope with a status that is not 200, the composite raises that
    rejection after these two calls and returns nothing, whatever is chained
    after it. *)
Theorem rejection_aborts_chain (self : SavePkcsView.t) (a b : string)
    (auth : Authority) (calls : list requests.Call) (res : requests.Response) :
  auth calls (join_call a b (SavePkcsView.request self)) = Some res ->
  (requests.status_code res ≠ 200 ->
     (∀ B (k : value -> M B),
        (x <- SavePkcsView.pkcs7_join self a b ;; k x) auth calls
        = (Raise (rejection res), calls ++ [join_call a b (SavePkcsView.request self)]))
     ∧ sign_and_stamp self a b auth calls
       = (Raise (rejection res), calls ++ [join_call a b (SavePkcsView.request self)]))
  ∧ (requests.status_code res = 200 ->
     ∀ body joined res',
       requests.json res = Some (VDict body) ->
       joined = default VNone (body !! "pkcs7b64") ->
       auth (calls ++ [join_call a b (SavePkcsView.request self)])
            (timestamp_call joined (SavePkcsView.request self)) = Some res' ->
       requests.status_code res' ≠ 200 ->
       (∀ B (k : value -> M B),
          (x <- sign_and_stamp self a b ;; k x) auth calls
          = (Raise (rejection res'),
             calls ++ [join_call a b (SavePkcsView.request self);
                       timestamp_call joined (SavePkcsView.request self)]))
       ∧ sign_and_stamp self a b auth calls
         = (Raise (rejection res'),
            calls ++ [join_call a b (SavePkcsView.request self);
                      timestamp_call joined (SavePkcsView.request self)])).
Proof.
  intros Hc. split.
  - intros Hs.
    assert (E : ∀ B (k : value -> M B),
              (x <- SavePkcsView.pkcs7_join self a b ;; k x) auth calls
              = (Raise (rejection res),
                 calls ++ [join_call a b (SavePkcsView.request self)])).
    { intros B k. unfold bind.
      rewrite (view_join_run _ _ _ _ _ _ Hc), (rejected_test _ Hs). reflexivity. }
    split; [exact E | apply E].
  - intros Hs body joined res' Hj Hv Hc' Hs'.
    assert (E : sign_and_stamp self a b auth calls
              = (Raise (rejection res'),
                 calls ++ [join_call a b (SavePkcsView.request self);
                           timestamp_call joined (SavePkcsView.request self)])).
    { unfold sign_and_stamp, bind.
      rewrite (view_join_run _ _ _ _ _ _ Hc), (accepted_test _ Hs), Hj.
      assert (Ej : match body !! "pkcs7b64" with
                   | Some v => Return v
                   | None => Return VNone
                   end = Return joined)
        by (rewrite Hv; destruct (body !! "pkcs7b64"); reflexivity).
      rewrite Ej.
      rewrite (view_timestamp_run _ _ _ _ _ Hc'), (rejected_test _ Hs').
      rewrite <- app_assoc. reflexivity. }
    split; [|exact E]. intros B k. unfold bind at 1. rewrite E. reflexivity.
Qed.

Lemma rejection_aborts_chain_witness :
  (sign_and_stamp (SavePkcsView.mk proxied_request) "QUJD" "REVG"
     (stub rejection_answer) []
   = (Raise (rejection rejection_answer), [join_call "QUJD" "REVG" proxied_request]))
  ∧ (sign_and_stamp (SavePkcsView.mk proxied_request) "QUJD" "REVG" first_call_only []
     = (Raise (rejection rejection_answer),
        [join_call "QUJD" "REVG" proxied_request;
         timestamp_call (VStr "MIIC") proxied_request])).
Proof.
  split.
  - destruct (rejection_aborts_chain (SavePkcsView.mk proxied_request) "QUJD" "REVG"
                (stub rejection_answer) [] rejection_answer eq_refl) as [H _].
    apply H. discriminate.
  - destruct (rejection_aborts_chain (SavePkcsView.mk proxied_request) "QUJD" "REVG"
                first_call_only [] envelope_answer eq_refl) as [_ H].
    destruct (H eq_refl (<["pkcs7b64" := VStr "MIIC"]> ∅) (VStr "MIIC") rejection_answer)
      as [_ H2]; [reflexivity | reflexivity | reflexivity | discriminate | exact H2].
Defined.

(** ** The verify-only endpoint *)

(** The endpoint on a body that is a dictionary. *)
Lemma only_post_run (self : PkcsVerify.t) (request : Request) auth calls body :
  data (PkcsVerify.request self) = VDict body ->
  PkcsVerify.post self request auth calls =
    match body !! "pkcs7b64" with
    | None | Some VNone => (Raise missing_field, calls)
    | Some v =>
        (json_resp <- PkcsVerify.eimzo_verify self v ;;
         ret (VResponse json_resp HTTP_200_OK)) auth calls
    end.
Proof.
  intros Hd. unfold PkcsVerify.post. rewrite Hd.
  unfold bind at 1. unfold dict_get, ret.
  destruct (body !! "pkcs7b64") as [v|]; [|reflexivity].
  destruct v; reflexivity.
Qed.

(** C3, as stated, fails: a body that holds the field with [null] in it is
    refused with the missing-field error, and the verify stage is not run. *)
Lemma verify_endpoint_null_field_counterexample :
  data null_field_request = VDict (<["pkcs7b64" := VNone]> ∅)
  ∧ (<["pkcs7b64" := VNone]> ∅ : gmap string value) !! "pkcs7b64" = Some VNone
  ∧ PkcsVerify.post (PkcsVerify.mk null_field_request) null_field_request
      (stub envelope_answer) []
    = (Raise (ValidationError (error_detail (VStr "pkcs7b64 field is required")) None),
       []).
Proof.
  split; [reflexivity | split; [reflexivity |]].
  rewrite (only_post_run (PkcsVerify.mk null_field_request) null_field_request
             (stub envelope_answer) [] (<["pkcs7b64" := VNone]> ∅) eq_refl).
  reflexivity.
Qed.

(** C3, amended. On a body that is a JSON object without the field
    [pkcs7b64], or with [null] in it, the endpoint raises the missing-field
    [ValidationError], reported with status 400, whose detail has the entries
    [success] and [err_msg] and no other, [err_msg] being a string, and makes
    no call.  On a body that holds a string in the field it makes exactly the
    verify call with that string and, when the authority answers 200 with a
    JSON body, returns a response with status 200 whose data is the parsed
    body as it stands. *)
Theorem verify_only_endpoint (self : PkcsVerify.t) (request : Request)
    (auth : Authority) (calls : list requests.Call) (body : gmap string value) :
  data (PkcsVerify.request self) = VDict body ->
  (body !! "pkcs7b64" = None ∨ body !! "pkcs7b64" = Some VNone ->
     PkcsVerify.post self request auth calls
     = (Raise (ValidationError (error_detail (VStr "pkcs7b64 field is required")) None),
        calls)
     ∧ status_code_of
         (ValidationError (error_detail (VStr "pkcs7b64 field is required")) None)
       = HTTP_400_BAD_REQUEST
     ∧ ∃ m, error_detail (VStr "pkcs7b64 field is required") = VDict m
            ∧ dom m = {["success"; "err_msg"]}
            ∧ m !! "err_msg" = Some (VStr "pkcs7b64 field is required"))
  ∧ (∀ s, body !! "pkcs7b64" = Some (VStr s) ->
     calls_of (PkcsVerify.post self request) auth calls
     = calls ++ [verify_call (VStr s) (PkcsVerify.request self)]
     ∧ ∀ res payload,
         auth calls (verify_call (VStr s) (PkcsVerify.request self)) = Some res ->
         requests.status_code res = 200 ->
         requests.json res = Some payload ->
         result_of (PkcsVerify.post self request) auth calls
         = Return (VResponse payload HTTP_200_OK)).
Proof.
  intros Hd. split.
  - intros Hb. split; [|split].
    + rewrite (only_post_run _ _ _ _ _ Hd). destruct Hb as [-> | ->]; reflexivity.
    + reflexivity.
    + destruct (error_detail_entries (VStr "pkcs7b64 field is required"))
        as (m & Hm & Hdom & _ & He).
      exists m. auto.
  - intros s Hv.
    assert (E : PkcsVerify.post self request auth calls
              = (json_resp <- PkcsVerify.eimzo_verify self (VStr s) ;;
                 ret (VResponse json_resp HTTP_200_OK)) auth calls).
    { rewrite (only_post_run _ _ _ _ _ Hd), Hv. reflexivity. }
    split.
    + unfold calls_of. rewrite E. unfold bind. rewrite only_verify_run.
      destruct (auth calls _) as [res|]; [|reflexivity].
      destruct (negb _); [reflexivity|].
      destruct (requests.json res); reflexivity.
    + intros res payload Hc Hs Hj. unfold result_of. rewrite E. unfold bind.
      rewrite only_verify_run, Hc, (accepted_test _ Hs), Hj. reflexivity.
Qed.

Lemma verify_only_endpoint_witness :
  (PkcsVerify.post (PkcsVerify.mk bare_request) bare_request (stub envelope_answer) []
   = (Raise (ValidationError (error_detail (VStr "pkcs7b64 field is required")) None), []))
  ∧ calls_of (PkcsVerify.post (PkcsVerify.mk proxied_request) proxied_request)
      (stub envelope_answer) []
    = [verify_call (VStr "MIIB") proxied_request]
  ∧ result_of (PkcsVerify.post (PkcsVerify.mk proxied_request) proxied_request)
      (stub envelope_answer) []
    = Return (VResponse (VDict (<["pkcs7b64" := VStr "MIIC"]> ∅)) HTTP_200_OK).
Proof.
  split; [|split].
  - destruct (verify_only_endpoint (PkcsVerify.mk bare_request) bare_request
                (stub envelope_answer) [] ∅ eq_refl) as [H _].
    destruct H as [H _]; [left; reflexivity | exact H].
  - destruct (verify_only_endpoint (PkcsVerify.mk proxied_request) proxied_request
                (stub envelope_answer) [] _ eq_refl) as [_ H].
    destruct (H "MIIB") as [H1 _]; [reflexivity | exact H1].
  - destruct (verify_only_endpoint (PkcsVerify.mk proxied_request) proxied_request
                (stub envelope_answer) [] _ eq_refl) as [_ H].
    destruct (H "MIIB") as [_ H2]; [reflexivity |].
    apply (H2 envelope_answer); reflexivity.
Defined.

(** * Further properties of the module *)

(** ** Stages on a call that is not answered *)

Lemma view_timestamp_unanswered (self : SavePkcsView.t) (pkcs7 : value) auth calls :
  auth calls (timestamp_call pkcs7 (SavePkcsView.request self)) = None ->
  SavePkcsView.timestamp_pkcs7 self pkcs7 auth calls
  = (Raise RequestException,
     calls ++ [timestamp_call pkcs7 (SavePkcsView.request self)]).
Proof.
  intros H. unfold SavePkcsView.timestamp_pkcs7, bind.
  rewrite client_timestamp_run.
  fold (timestamp_call pkcs7 (SavePkcsView.request self)). rewrite H. reflexivity.
Qed.

Lemma view_join_unanswered (self : SavePkcsView.t) (a b : string) auth calls :
  auth calls (join_call a b (SavePkcsView.request self)) = None ->
  SavePkcsView.pkcs7_join self a b auth calls
  = (Raise RequestException, calls ++ [join_call a b (SavePkcsView.request self)]).
Proof.
  intros H. unfold SavePkcsView.pkcs7_join, bind.
  rewrite client_join_run.
  fold (join_call a b (SavePkcsView.request self)). rewrite H. reflexivity.
Qed.

Lemma view_verify_unanswered (self : SavePkcsView.t) (pkcs7b64 : value) auth calls :
  auth calls (verify_call pkcs7b64 (SavePkcsView.request self)) = None ->
  SavePkcsView.eimzo_verify self pkcs7b64 auth calls
  = (Raise RequestException,
     calls ++ [verify_call pkcs7b64 (SavePkcsView.request self)]).
Proof.
  intros H. unfold SavePkcsView.eimzo_verify, bind.
  rewrite client_verify_run.
  fold (verify_call pkcs7b64 (SavePkcsView.request self)). rewrite H. reflexivity.
Qed.

(** The status test decided. *)
Lemma status_cases (res : requests.Response) :
  (requests.status_code res = 200 ∧ negb (requests.status_code res =? 200) = false)
  ∨ (requests.status_code res ≠ 200 ∧ negb (requests.status_code res =? 200) = true).
Proof.
  destruct (Z.eq_dec (requests.status_code res) 200) as [H | H].
  - left. split; [exact H | apply accepted_test, H].
  - right. split; [exact H | apply rejected_test, H].
Qed.

(** The endpoint on a body that holds a value other than [None]. *)
Lemma only_post_forwards (self : PkcsVerify.t) (request : Request) auth calls body v :
  data (PkcsVerify.request self) = VDict body ->
  body !! "pkcs7b64" = Some v -> v ≠ VNone ->
  PkcsVerify.post self request auth calls
  = (json_resp <- PkcsVerify.eimzo_verify self v ;;
     ret (VResponse json_resp HTTP_200_OK)) auth calls.
Proof.
  intros Hd Hv Hne. rewrite (only_post_run _ _ _ _ _ Hd), Hv.
  destruct v; try reflexivity. contradiction.
Qed.

(** ** One call for each stage *)

(** X2. A stage of a view makes exactly one call, whatever the authority
    does with it: answered with any status and any body, or not answered at
    all, nothing is sent a second time. *)
Theorem stages_make_one_call (request : Request) (pkcs7 : value) (a b : string)
    (auth : Authority) (calls : list requests.Call) :
  calls_of (SavePkcsView.timestamp_pkcs7 (SavePkcsView.mk request) pkcs7) auth calls
    = calls ++ [timestamp_call pkcs7 request]
  ∧ calls_of (SavePkcsView.eimzo_verify (SavePkcsView.mk request) pkcs7) auth calls
    = calls ++ [verify_call pkcs7 request]
  ∧ calls_of (SavePkcsView.pkcs7_join (SavePkcsView.mk request) a b) auth calls
    = calls ++ [join_call a b request]
  ∧ calls_of (PkcsVerify.eimzo_verify (PkcsVerify.mk request) pkcs7) auth calls
    = calls ++ [verify_call pkcs7 request].
Proof.
  split; [|split; [|split]]; unfold calls_of.
  - destruct (auth calls (timestamp_call pkcs7 request)) as [res|] eqn:Hc.
    + rewrite (view_timestamp_run (SavePkcsView.mk request) _ _ _ _ Hc). reflexivity.
    + rewrite (view_timestamp_unanswered (SavePkcsView.mk request) _ _ _ Hc).
      reflexivity.
  - destruct (auth calls (verify_call pkcs7 request)) as [res|] eqn:Hc.
    + rewrite (view_verify_run (SavePkcsView.mk request) _ _ _ _ Hc). reflexivity.
    + rewrite (view_verify_unanswered (SavePkcsView.mk request) _ _ _ Hc).
      reflexivity.
  - apply (view_join_calls (SavePkcsView.mk request)).
  - rewrite only_verify_run. reflexivity.
Qed.

(** ** Failures that are not rejections *)

(** X3. When the authority cannot be reached, every stage raises the
    transport failure after its one attempt, and so does the verify-only
    endpoint on a body that holds an envelope: none of them turns it into a
    [ValidationError] or a value, so it ends as a server error. *)
Theorem transport_failure_propagates (request : Request) (pkcs7 : value)
    (a b : string) (auth : Authority) (calls : list requests.Call) :
  (auth calls (timestamp_call pkcs7 request) = None ->
     SavePkcsView.timestamp_pkcs7 (SavePkcsView.mk request) pkcs7 auth calls
     = (Raise RequestException, calls ++ [timestamp_call pkcs7 request]))
  ∧ (auth calls (join_call a b request) = None ->
     SavePkcsView.pkcs7_join (SavePkcsView.mk request) a b auth calls
     = (Raise RequestException, calls ++ [join_call a b request]))
  ∧ (auth calls (verify_call pkcs7 request) = None ->
     SavePkcsView.eimzo_verify (SavePkcsView.mk request) pkcs7 auth calls
     = (Raise RequestException, calls ++ [verify_call pkcs7 request])
     ∧ PkcsVerify.eimzo_verify (PkcsVerify.mk request) pkcs7 auth calls
       = (Raise RequestException, calls ++ [verify_call pkcs7 request])
     ∧ (∀ body r, data request = VDict body ->
          body !! "pkcs7b64" = Some pkcs7 -> pkcs7 ≠ VNone ->
          PkcsVerify.post (PkcsVerify.mk request) r auth calls
          = (Raise RequestException, calls ++ [verify_call pkcs7 request])))
  ∧ status_code_of RequestException = HTTP_500_INTERNAL_SERVER_ERROR.
Proof.
  split; [|split; [|split]].
  - apply (view_timestamp_unanswered (SavePkcsView.mk request)).
  - apply (view_join_unanswered (SavePkcsView.mk request)).
  - intros Hc. split; [|split].
    + apply (view_verify_unanswered (SavePkcsView.mk request)), Hc.
    + rewrite only_verify_run. cbn [PkcsVerify.request]. rewrite Hc. reflexivity.
    + intros body r Hd Hv Hne.
      rewrite (only_post_forwards (PkcsVerify.mk request) r _ _ body pkcs7 Hd Hv Hne).
      unfold bind. rewrite only_verify_run. cbn [PkcsVerify.request].
      rewrite Hc. reflexivity.
  - reflexivity.
Qed.

Lemma transport_failure_propagates_witness :
  SavePkcsView.timestamp_pkcs7 (SavePkcsView.mk proxied_request) (VStr "MIIB")
    unreachable []
  = (Raise RequestException, [timestamp_call (VStr "MIIB") proxied_request])
  ∧ SavePkcsView.pkcs7_join (SavePkcsView.mk proxied_request) "QUJD" "REVG"
      unreachable []
    = (Raise RequestException, [join_call "QUJD" "REVG" proxied_request])
  ∧ PkcsVerify.post (PkcsVerify.mk proxied_request) proxied_request unreachable []
    = (Raise RequestException, [verify_call (VStr "MIIB") proxied_request]).
Proof.
  destruct (transport_failure_propagates proxied_request (VStr "MIIB") "QUJD" "REVG"
              unreachable []) as (H1 & H2 & H3 & _).
  split; [apply H1; reflexivity | split; [apply H2; reflexivity |]].
  destruct (H3 eq_refl) as (_ & _ & H).
  apply (H (<["pkcs7b64" := VStr "MIIB"]> ∅)); [reflexivity | reflexivity | discriminate].
Defined.

(** X4. On an answer with status 200 whose body is not JSON, the stages
    that read the body (timestamp, join, and the verify stage of the
    verify-only view) raise the decoding error, which is no
    [ValidationError]; the verify stage of the compose view, which never
    reads the body, returns [None]. *)
Theorem body_not_json (request : Request) (pkcs7 : value) (a b : string)
    (auth : Authority) (calls : list requests.Call) (res : requests.Response) :
  requests.status_code res = 200 ->
  requests.json res = None ->
  (auth calls (timestamp_call pkcs7 request) = Some res ->
     SavePkcsView.timestamp_pkcs7 (SavePkcsView.mk request) pkcs7 auth calls
     = (Raise JSONDecodeError, calls ++ [timestamp_call pkcs7 request]))
  ∧ (auth calls (join_call a b request) = Some res ->
     SavePkcsView.pkcs7_join (SavePkcsView.mk request) a b auth calls
     = (Raise JSONDecodeError, calls ++ [join_call a b request]))
  ∧ (auth calls (verify_call pkcs7 request) = Some res ->
     PkcsVerify.eimzo_verify (PkcsVerify.mk request) pkcs7 auth calls
     = (Raise JSONDecodeError, calls ++ [verify_call pkcs7 request])
     ∧ SavePkcsView.eimzo_verify (SavePkcsView.mk request) pkcs7 auth calls
       = (Return VNone, calls ++ [verify_call pkcs7 request])).
Proof.
  intros Hs Hj. split; [|split].
  - intros Hc.
    rewrite (view_timestamp_run (SavePkcsView.mk request) _ _ _ _ Hc).
    rewrite (accepted_test _ Hs), Hj. reflexivity.
  - intros Hc.
    rewrite (view_join_run (SavePkcsView.mk request) _ _ _ _ _ Hc).
    rewrite (accepted_test _ Hs), Hj. reflexivity.
  - intros Hc. split.
    + rewrite only_verify_run. cbn [PkcsVerify.request].
      rewrite Hc, (accepted_test _ Hs), Hj. reflexivity.
    + rewrite (view_verify_run (SavePkcsView.mk request) _ _ _ _ Hc).
      rewrite (accepted_test _ Hs). reflexivity.
Qed.

Lemma body_not_json_witness :
  SavePkcsView.timestamp_pkcs7 (SavePkcsView.mk proxied_request) (VStr "MIIB")
    (stub not_json_answer) []
  = (Raise JSONDecodeError, [timestamp_call (VStr "MIIB") proxied_request])
  ∧ SavePkcsView.eimzo_verify (SavePkcsView.mk proxied_request) (VStr "MIIB")
      (stub not_json_answer) []
    = (Return VNone, [verify_call (VStr "MIIB") proxied_request]).
Proof.
  destruct (body_not_json proxied_request (VStr "MIIB") "QUJD" "REVG"
              (stub not_json_answer) [] not_json_answer eq_refl eq_refl)
    as (H1 & _ & H3).
  split; [apply H1; reflexivity |].
  destruct (H3 eq_refl) as [_ H]. exact H.
Defined.

(** X5. On an answer with status 200 whose JSON body is not an object (a
    list, a string, a number, [null]), the timestamp and join stages raise
    [AttributeError] where they look the envelope up, while the verify stage
    of the verify-only view returns that body as it is. *)
Theorem body_not_an_object (request : Request) (pkcs7 : value) (a b : string)
    (auth : Authority) (calls : list requests.Call)
    (res : requests.Response) (body : value) :
  requests.status_code res = 200 ->
  requests.json res = Some body ->
  is_dict body = false ->
  (auth calls (timestamp_call pkcs7 request) = Some res ->
     SavePkcsView.timestamp_pkcs7 (SavePkcsView.mk request) pkcs7 auth calls
     = (Raise AttributeError, calls ++ [timestamp_call pkcs7 request]))
  ∧ (auth calls (join_call a b request) = Some res ->
     SavePkcsView.pkcs7_join (SavePkcsView.mk request) a b auth calls
     = (Raise AttributeError, calls ++ [join_call a b request]))
  ∧ (auth calls (verify_call pkcs7 request) = Some res ->
     PkcsVerify.eimzo_verify (PkcsVerify.mk request) pkcs7 auth calls
     = (Return body, calls ++ [verify_call pkcs7 request])).
Proof.
  intros Hs Hj Hb. split; [|split].
  - intros Hc.
    rewrite (view_timestamp_run (SavePkcsView.mk request) _ _ _ _ Hc).
    rewrite (accepted_test _ Hs), Hj. destruct body; try reflexivity. discriminate.
  - intros Hc.
    rewrite (view_join_run (SavePkcsView.mk request) _ _ _ _ _ Hc).
    rewrite (accepted_test _ Hs), Hj. destruct body; try reflexivity. discriminate.
  - intros Hc. rewrite only_verify_run. cbn [PkcsVerify.request].
    rewrite Hc, (accepted_test _ Hs), Hj. reflexivity.
Qed.

Lemma body_not_an_object_witness :
  SavePkcsView.pkcs7_join (SavePkcsView.mk proxied_request) "QUJD" "REVG"
    (stub list_answer) []
  = (Raise AttributeError, [join_call "QUJD" "REVG" proxied_request])
  ∧ PkcsVerify.eimzo_verify (PkcsVerify.mk proxied_request) (VStr "MIIB")
      (stub list_answer) []
    = (Return (VList []), [verify_call (VStr "MIIB") proxied_request]).
Proof.
  destruct (body_not_an_object proxied_request (VStr "MIIB") "QUJD" "REVG"
              (stub list_answer) [] list_answer (VList []) eq_refl eq_refl eq_refl)
    as (_ & H2 & H3).
  split; [apply H2; reflexivity | apply H3; reflexivity].
Defined.

(** ** What a returned value and a raised rejection tell the caller *)

(** X6. A stage returns a value only when the authority answered its call
    with status 200: a value of the timestamp or join stage comes from an
    answer whose body is a JSON object, the verify stage of the compose view
    returns nothing but [None], and the verify stage of the verify-only view
    returns nothing but the parsed body of that answer. *)
Theorem return_needs_200 (request : Request) (pkcs7 : value) (a b : string)
    (auth : Authority) (calls : list requests.Call) (v : value) :
  (result_of (SavePkcsView.timestamp_pkcs7 (SavePkcsView.mk request) pkcs7) auth calls
     = Return v ->
   ∃ res body, auth calls (timestamp_call pkcs7 request) = Some res
               ∧ requests.status_code res = 200
               ∧ requests.json res = Some (VDict body))
  ∧ (result_of (SavePkcsView.pkcs7_join (SavePkcsView.mk request) a b) auth calls
       = Return v ->
     ∃ res body, auth calls (join_call a b request) = Some res
                 ∧ requests.status_code res = 200
                 ∧ requests.json res = Some (VDict body)
                 ∧ v = default VNone (body !! "pkcs7b64"))
  ∧ (result_of (SavePkcsView.eimzo_verify (SavePkcsView.mk request) pkcs7) auth calls
       = Return v ->
     v = VNone
     ∧ ∃ res, auth calls (verify_call pkcs7 request) = Some res
              ∧ requests.status_code res = 200)
  ∧ (result_of (PkcsVerify.eimzo_verify (PkcsVerify.mk request) pkcs7) auth calls
       = Return v ->
     ∃ res, auth calls (verify_call pkcs7 request) = Some res
            ∧ requests.status_code res = 200
            ∧ requests.json res = Some v).
Proof.
  unfold result_of. split; [|split; [|split]].
  - destruct (auth calls (timestamp_call pkcs7 request)) as [res|] eqn:Hc.
    + rewrite (view_timestamp_run (SavePkcsView.mk request) _ _ _ _ Hc). cbn [fst].
      destruct (status_cases res) as [[Hs ->] | [Hs ->]]; [|discriminate].
      destruct (requests.json res) as [[]|] eqn:Hj; try discriminate.
      intros _. eauto.
    + rewrite (view_timestamp_unanswered (SavePkcsView.mk request) _ _ _ Hc).
      discriminate.
  - destruct (auth calls (join_call a b request)) as [res|] eqn:Hc.
    + rewrite (view_join_run (SavePkcsView.mk request) _ _ _ _ _ Hc). cbn [fst].
      destruct (status_cases res) as [[Hs ->] | [Hs ->]]; [|discriminate].
      destruct (requests.json res) as [[| | | | | |m|]|] eqn:Hj; try discriminate.
      intros H. exists res, m.
      split; [reflexivity | split; [exact Hs | split; [exact Hj |]]].
      destruct (m !! "pkcs7b64"); injection H as <-; reflexivity.
    + rewrite (view_join_unanswered (SavePkcsView.mk request) _ _ _ _ Hc).
      discriminate.
  - destruct (auth calls (verify_call pkcs7 request)) as [res|] eqn:Hc.
    + rewrite (view_verify_run (SavePkcsView.mk request) _ _ _ _ Hc). cbn [fst].
      destruct (status_cases res) as [[Hs ->] | [Hs ->]]; [|discriminate].
      intros [= <-]. eauto.
    + rewrite (view_verify_unanswered (SavePkcsView.mk request) _ _ _ Hc).
      discriminate.
  - rewrite only_verify_run. cbn [PkcsVerify.request fst].
    destruct (auth calls (verify_call pkcs7 request)) as [res|] eqn:Hc;
      [|discriminate].
    destruct (status_cases res) as [[Hs ->] | [Hs ->]]; [|discriminate].
    destruct (requests.json res) eqn:Hj; [|discriminate].
    intros [= <-]. eauto.
Qed.

Lemma return_needs_200_witness :
  ∃ res body, stub envelope_answer [] (join_call "QUJD" "REVG" proxied_request) = Some res
              ∧ requests.status_code res = 200
              ∧ requests.json res = Some (VDict body)
              ∧ VStr "MIIC" = default VNone (body !! "pkcs7b64").
Proof.
  destruct (return_needs_200 proxied_request (VStr "MIIB") "QUJD" "REVG"
              (stub envelope_answer) [] (VStr "MIIC")) as (_ & H & _).
  apply H. reflexivity.
Defined.

(** X7. A [ValidationError] raised by a stage is always the rejection of an
    answer: the authority answered the stage's call with a status that is
    not 200, the detail holds the raw body of that answer and the code is
    its status. *)
Theorem validation_error_is_rejection (request : Request) (pkcs7 : value)
    (a b : string) (auth : Authority) (calls : list requests.Call)
    (detail : value) (code : option Z) :
  (result_of (SavePkcsView.timestamp_pkcs7 (SavePkcsView.mk request) pkcs7) auth calls
     = Raise (ValidationError detail code) ->
   ∃ res, auth calls (timestamp_call pkcs7 request) = Some res
          ∧ requests.status_code res ≠ 200
          ∧ detail = error_detail (VStr (requests.text res))
          ∧ code = Some (requests.status_code res))
  ∧ (result_of (SavePkcsView.pkcs7_join (SavePkcsView.mk request) a b) auth calls
       = Raise (ValidationError detail code) ->
     ∃ res, auth calls (join_call a b request) = Some res
            ∧ requests.status_code res ≠ 200
            ∧ detail = error_detail (VStr (requests.text res))
            ∧ code = Some (requests.status_code res))
  ∧ (result_of (SavePkcsView.eimzo_verify (SavePkcsView.mk request) pkcs7) auth calls
       = Raise (ValidationError detail code)
     ∨ result_of (PkcsVerify.eimzo_verify (PkcsVerify.mk request) pkcs7) auth calls
       = Raise (ValidationError detail code) ->
     ∃ res, auth calls (verify_call pkcs7 request) = Some res
            ∧ requests.status_code res ≠ 200
            ∧ detail = error_detail (VStr (requests.text res))
            ∧ code = Some (requests.status_code res)).
Proof.
  unfold result_of. split; [|split].
  - destruct (auth calls (timestamp_call pkcs7 request)) as [res|] eqn:Hc.
    + rewrite (view_timestamp_run (SavePkcsView.mk request) _ _ _ _ Hc). cbn [fst].
      destruct (status_cases res) as [[Hs ->] | [Hs ->]].
      * destruct (requests.json res) as [[| | | | | |m|]|]; try discriminate.
        destruct (m !! "pkcs7b64") as [[|[|]| | | | | |]|]; discriminate.
      * intros [= <- <-]. eauto.
    + rewrite (view_timestamp_unanswered (SavePkcsView.mk request) _ _ _ Hc).
      discriminate.
  - destruct (auth calls (join_call a b request)) as [res|] eqn:Hc.
    + rewrite (view_join_run (SavePkcsView.mk request) _ _ _ _ _ Hc). cbn [fst].
      destruct (status_cases res) as [[Hs ->] | [Hs ->]].
      * destruct (requests.json res) as [[| | | | | |m|]|]; try discriminate.
        destruct (m !! "pkcs7b64"); discriminate.
      * intros [= <- <-]. eauto.
    + rewrite (view_join_unanswered (SavePkcsView.mk request) _ _ _ _ Hc).
      discriminate.
  - rewrite only_verify_run. cbn [PkcsVerify.request fst].
    destruct (auth calls (verify_call pkcs7 request)) as [res|] eqn:Hc.
    + rewrite (view_verify_run (SavePkcsView.mk request) _ _ _ _ Hc). cbn [fst].
      destruct (status_cases res) as [[Hs ->] | [Hs ->]].
      * destruct (requests.json res); intros [H | H]; discriminate.
      * intros [[= <- <-] | [= <- <-]]; eauto.
    + rewrite (view_verify_unanswered (SavePkcsView.mk request) _ _ _ Hc).
      intros [H | H]; discriminate.
Qed.

Lemma validation_error_is_rejection_witness :
  ∃ res, stub rejection_answer [] (timestamp_call (VStr "MIIB") proxied_request) = Some res
         ∧ requests.status_code res ≠ 200
         ∧ error_detail (VStr "boom") = error_detail (VStr (requests.text res))
         ∧ Some 500 = Some (requests.status_code res).
Proof.
  destruct (validation_error_is_rejection proxied_request (VStr "MIIB") "QUJD" "REVG"
              (stub rejection_answer) [] (error_detail (VStr "boom")) (Some 500))
    as (H & _).
  apply H. reflexivity.
Defined.

(** X8. The timestamp stage never returns [False]: the default it gives to
    a missing envelope field is caught by its own test, as is a [false] that
    the authority sends. *)
Theorem timestamp_never_returns_False (self : SavePkcsView.t) (pkcs7 : value)
    (auth : Authority) (calls : list requests.Call) :
  result_of (SavePkcsView.timestamp_pkcs7 self pkcs7) auth calls ≠ Return (VBool false).
Proof.
  unfold result_of.
  destruct (auth calls (timestamp_call pkcs7 (SavePkcsView.request self)))
    as [res|] eqn:Hc.
  - rewrite (view_timestamp_run _ _ _ _ _ Hc). cbn [fst].
    destruct (negb _); [discriminate|].
    destruct (requests.json res) as [[| | | | | |m|]|]; try discriminate.
    destruct (m !! "pkcs7b64") as [[|[|]| | | | | |]|]; discriminate.
  - rewrite (view_timestamp_unanswered _ _ _ _ Hc). discriminate.
Qed.

(** ** The identity headers *)

(** X9. The resolved source IP is never the empty string, so the
    [X-Real-IP] header of an outbound call is never empty: an empty
    forwarded field or peer address is passed over like a missing one. *)
Theorem user_ip_never_empty (self : EimzoServiceApi.t) (request : Request) :
  EimzoServiceApi.get_user_ip request ≠ EmptyString
  ∧ EimzoServiceApi.get_headers self request !! "X-Real-IP" ≠ Some (VStr EmptyString).
Proof.
  assert (H : EimzoServiceApi.get_user_ip request ≠ EmptyString).
  { unfold EimzoServiceApi.get_user_ip.
    destruct (META request !! "HTTP_X_REAL_IP") as [[|c s]|];
      destruct (META request !! "REMOTE_ADDR") as [[|c' s']|]; simpl; discriminate. }
  split; [exact H|].
  unfold EimzoServiceApi.get_headers.
  rewrite lookup_insert_ne; [|discriminate]. rewrite lookup_insert_eq.
  intros [= E]. contradiction.
Qed.

(** ** The join payload *)

(** X10. When the first fragments hold no ['|'], two joins that send the
    same payload were given the same fragments in the same order: the
    authority can tell every ordered pair from every other. *)
Theorem join_payload_determines_fragments (self self' : EimzoServiceApi.t)
    (a b a' b' : string) (request request' : Request)
    (auth auth' : Authority) (calls : list requests.Call) :
  bar_free a = true -> bar_free a' = true ->
  requests.data <$> calls_of (EimzoServiceApi.pkcs7_join self a b request) auth calls
  = requests.data <$> calls_of (EimzoServiceApi.pkcs7_join self' a' b' request') auth' calls ->
  a = a' ∧ b = b'.
Proof.
  intros Ha Ha'. unfold calls_of. rewrite !client_join_run. cbn [snd].
  rewrite !fmap_app. intros E. apply app_inv_head in E.
  cbn in E. injection E as E.
  exact (join_payload_inj a a' b b' Ha Ha' E).
Qed.

Lemma join_payload_determines_fragments_witness :
  "QUJD" = "QUJD" ∧ "REVG" = "REVG".
Proof.
  apply (join_payload_determines_fragments eimzo_service_api eimzo_service_api
           "QUJD" "REVG" "QUJD" "REVG" proxied_request bare_request
           (stub envelope_answer) unreachable []);
    reflexivity.
Defined.

Lemma append_assoc (s t u : string) : (s +:+ t) +:+ u = s +:+ t +:+ u.
Proof.
  induction s as [|x s IH]; [reflexivity|].
  change (String x ((s +:+ t) +:+ u) = String x (s +:+ t +:+ u)).
  rewrite IH. reflexivity.
Qed.

(** X11. The join does not escape the delimiter: a ['|'] inside a fragment
    is sent as it is, so joining [a|b] with [c] is the same computation as
    joining [a] with [b|c]. *)
Theorem join_does_not_escape (self : EimzoServiceApi.t) (a b c : string)
    (request : Request) :
  EimzoServiceApi.pkcs7_join self (a +:+ "|" +:+ b) c request
  = EimzoServiceApi.pkcs7_join self a (b +:+ "|" +:+ c) request.
Proof.
  unfold EimzoServiceApi.pkcs7_join.
  rewrite (append_assoc a ("|" +:+ b) ("|" +:+ c)).
  reflexivity.
Qed.

(** ** Two stages on the same answer *)

Lemma ambiguous_answer_true (res : requests.Response) :
  ambiguous_answer res = true ->
  requests.status_code res = 200
  ∧ ∃ body, requests.json res = Some (VDict body)
            ∧ (body !! "pkcs7b64" = None ∨ body !! "pkcs7b64" = Some (VBool false)).
Proof.
  unfold ambiguous_answer. intros H. apply andb_prop in H as [Hs H].
  split; [apply Z.eqb_eq, Hs|].
  destruct (requests.json res) as [[| | | | | |m|]|]; try discriminate.
  exists m. split; [reflexivity|].
  destruct (m !! "pkcs7b64") as [[|[|]| | | | | |]|]; try discriminate; auto.
Qed.

(** X12. Given the same answer, the join stage and the timestamp stage end
    alike, returning the same value or raising the same exception, unless the
    answer is a 200 whose JSON object has no envelope field or has [false]
    in it; on such an answer they differ, the timestamp stage returning a
    response object and the join stage [None] or [False]. *)
Theorem join_and_timestamp_agree (self : SavePkcsView.t) (a b : string)
    (pkcs7 : value) (auth auth' : Authority) (calls calls' : list requests.Call)
    (res : requests.Response) :
  auth calls (join_call a b (SavePkcsView.request self)) = Some res ->
  auth' calls' (timestamp_call pkcs7 (SavePkcsView.request self)) = Some res ->
  (ambiguous_answer res = false <->
   result_of (SavePkcsView.pkcs7_join self a b) auth calls
   = result_of (SavePkcsView.timestamp_pkcs7 self pkcs7) auth' calls').
Proof.
  intros Hc Hc'. unfold result_of.
  rewrite (view_join_run _ _ _ _ _ _ Hc), (view_timestamp_run _ _ _ _ _ Hc').
  cbn [fst]. unfold ambiguous_answer.
  destruct (status_cases res) as [[Hs Ht] | [Hs Ht]]; rewrite Ht.
  - rewrite Hs. cbn [Z.eqb Pos.eqb andb].
    destruct (requests.json res) as [[| | | | | |m|]|]; try (split; reflexivity).
    destruct (m !! "pkcs7b64") as [[|[|]| | | | | |]|];
      try (split; reflexivity); split; discriminate.
  - apply Z.eqb_neq in Hs. rewrite Hs. split; reflexivity.
Qed.

Lemma join_and_timestamp_agree_witness :
  (ambiguous_answer envelope_answer = false <->
   result_of (SavePkcsView.pkcs7_join (SavePkcsView.mk proxied_request) "QUJD" "REVG")
     (stub envelope_answer) []
   = result_of (SavePkcsView.timestamp_pkcs7 (SavePkcsView.mk proxied_request)
                  (VStr "MIIB")) (stub envelope_answer) [])
  ∧ (ambiguous_answer empty_object_answer = false <->
     result_of (SavePkcsView.pkcs7_join (SavePkcsView.mk proxied_request) "QUJD" "REVG")
       (stub empty_object_answer) []
     = result_of (SavePkcsView.timestamp_pkcs7 (SavePkcsView.mk proxied_request)
                    (VStr "MIIB")) (stub empty_object_answer) []).
Proof.
  split.
  - apply (join_and_timestamp_agree (SavePkcsView.mk proxied_request) "QUJD" "REVG"
             (VStr "MIIB") (stub envelope_answer) (stub envelope_answer) [] []
             envelope_answer); reflexivity.
  - apply (join_and_timestamp_agree (SavePkcsView.mk proxied_request) "QUJD" "REVG"
             (VStr "MIIB") (stub empty_object_answer) (stub empty_object_answer) [] []
             empty_object_answer); reflexivity.
Defined.

(** ** The verify-only endpoint off its expected path *)

(** X13. Once the body holds an envelope, a failure of the verify stage is
    the failure of the endpoint, unchanged and after the same single call; in
    particular an answer with a status that is not 200 reaches the caller as
    the rejection that holds the raw body and the status of that answer. *)
Theorem endpoint_passes_stage_failure (self : PkcsVerify.t) (request : Request)
    (auth : Authority) (calls : list requests.Call)
    (body : gmap string value) (v : value) :
  data (PkcsVerify.request self) = VDict body ->
  body !! "pkcs7b64" = Some v -> v ≠ VNone ->
  (∀ e, result_of (PkcsVerify.eimzo_verify self v) auth calls = Raise e ->
        PkcsVerify.post self request auth calls
        = (Raise e, calls ++ [verify_call v (PkcsVerify.request self)]))
  ∧ (∀ res, auth calls (verify_call v (PkcsVerify.request self)) = Some res ->
            requests.status_code res ≠ 200 ->
            PkcsVerify.post self request auth calls
            = (Raise (ValidationError (error_detail (VStr (requests.text res)))
                        (Some (requests.status_code res))),
               calls ++ [verify_call v (PkcsVerify.request self)])).
Proof.
  intros Hd Hv Hne.
  rewrite (only_post_forwards _ request auth calls _ _ Hd Hv Hne).
  unfold result_of, bind. rewrite only_verify_run. cbn [fst]. split.
  - intros e He. rewrite He. reflexivity.
  - intros res Hc Hs. rewrite Hc, (rejected_test _ Hs). reflexivity.
Qed.

Lemma endpoint_passes_stage_failure_witness :
  PkcsVerify.post (PkcsVerify.mk proxied_request) proxied_request
    (stub rejection_answer) []
  = (Raise (ValidationError (error_detail (VStr "boom")) (Some 500)),
     [verify_call (VStr "MIIB") proxied_request])
  ∧ PkcsVerify.post (PkcsVerify.mk proxied_request) proxied_request
      (stub not_json_answer) []
    = (Raise JSONDecodeError, [verify_call (VStr "MIIB") proxied_request]).
Proof.
  split.
  - destruct (endpoint_passes_stage_failure (PkcsVerify.mk proxied_request)
                proxied_request (stub rejection_answer) []
                (<["pkcs7b64" := VStr "MIIB"]> ∅) (VStr "MIIB"))
      as [_ H]; [reflexivity | reflexivity | discriminate |].
    apply (H rejection_answer); [reflexivity | discriminate].
  - destruct (endpoint_passes_stage_failure (PkcsVerify.mk proxied_request)
                proxied_request (stub not_json_answer) []
                (<["pkcs7b64" := VStr "MIIB"]> ∅) (VStr "MIIB"))
      as [H _]; [reflexivity | reflexivity | discriminate |].
    apply H. reflexivity.
Defined.

(** X14. On a body that is not a dictionary (a JSON list, string or number)
    the endpoint raises [AttributeError] where it looks the field up, before
    any call: the caller gets a server error and not the missing-field
    error. *)
Theorem endpoint_body_not_a_dict (self : PkcsVerify.t) (request : Request)
    (auth : Authority) (calls : list requests.Call) :
  is_dict (data (PkcsVerify.request self)) = false ->
  PkcsVerify.post self request auth calls = (Raise AttributeError, calls)
  ∧ status_code_of AttributeError = HTTP_500_INTERNAL_SERVER_ERROR
  ∧ AttributeError ≠ missing_field.
Proof.
  intros H. split; [|split; [reflexivity | discriminate]].
  unfold PkcsVerify.post, bind.
  destruct (data (PkcsVerify.request self)); try reflexivity. discriminate.
Qed.

Lemma endpoint_body_not_a_dict_witness :
  PkcsVerify.post (PkcsVerify.mk list_body_request) list_body_request
    (stub envelope_answer) []
  = (Raise AttributeError, []).
Proof.
  apply (endpoint_body_not_a_dict (PkcsVerify.mk list_body_request) list_body_request
           (stub envelope_answer) []).
  reflexivity.
Defined.

(** X15. The endpoint returns only after a verify call that the authority
    answered with status 200 and a JSON body: what it returns is a response
    with status 200 whose data is that parsed body, and the call carried the
    value, other than [None], that the request body holds for [pkcs7b64]. *)
Theorem endpoint_return_needs_200 (self : PkcsVerify.t) (request : Request)
    (auth : Authority) (calls : list requests.Call) (v : value) :
  result_of (PkcsVerify.post self request) auth calls = Return v ->
  ∃ body pkcs7 res payload,
    data (PkcsVerify.request self) = VDict body
    ∧ body !! "pkcs7b64" = Some pkcs7 ∧ pkcs7 ≠ VNone
    ∧ auth calls (verify_call pkcs7 (PkcsVerify.request self)) = Some res
    ∧ requests.status_code res = 200
    ∧ requests.json res = Some payload
    ∧ v = VResponse payload HTTP_200_OK
    ∧ calls_of (PkcsVerify.post self request) auth calls
      = calls ++ [verify_call pkcs7 (PkcsVerify.request self)].
Proof.
  unfold result_of, calls_of.
  destruct (data (PkcsVerify.request self)) as [| | | | | |body|] eqn:Hd;
    try (unfold PkcsVerify.post, bind; rewrite Hd; discriminate).
  destruct (body !! "pkcs7b64") as [p|] eqn:Hp;
    [|rewrite (only_post_run _ _ _ _ _ Hd), Hp; discriminate].
  destruct (is_None p) eqn:Hn.
  { rewrite (only_post_run _ _ _ _ _ Hd), Hp.
    destruct p; try discriminate Hn. discriminate. }
  assert (Hne : p ≠ VNone) by (intros ->; discriminate Hn).
  rewrite (only_post_forwards _ request auth calls _ _ Hd Hp Hne).
  unfold bind. rewrite only_verify_run.
  destruct (auth calls (verify_call p (PkcsVerify.request self))) as [res|] eqn:Hc;
    [|discriminate].
  destruct (status_cases res) as [[Hs ->] | [Hs ->]]; [|discriminate].
  destruct (requests.json res) as [payload|] eqn:Hj; [|discriminate].
  cbn [fst snd ret]. intros [= <-].
  exists body, p, res, payload.
  repeat (split; [first [reflexivity | assumption]|]). reflexivity.
Qed.

Lemma endpoint_return_needs_200_witness :
  ∃ body pkcs7 res payload,
    data proxied_request = VDict body
    ∧ body !! "pkcs7b64" = Some pkcs7 ∧ pkcs7 ≠ VNone
    ∧ stub envelope_answer [] (verify_call pkcs7 proxied_request) = Some res
    ∧ requests.status_code res = 200
    ∧ requests.json res = Some payload
    ∧ VResponse (VDict (<["pkcs7b64" := VStr "MIIC"]> ∅)) HTTP_200_OK
      = VResponse payload HTTP_200_OK
    ∧ calls_of (PkcsVerify.post (PkcsVerify.mk proxied_request) proxied_request)
        (stub envelope_answer) []
      = [] ++ [verify_call pkcs7 proxied_request].
Proof.
  apply (endpoint_return_needs_200 (PkcsVerify.mk proxied_request) proxied_request
           (stub envelope_answer) []
           (VResponse (VDict (<["pkcs7b64" := VStr "MIIC"]> ∅)) HTTP_200_OK)).
  reflexivity.
Defined.

(** X16. A [ValidationError] of the endpoint is one of two kinds, told apart
    by its code: without a code it is the missing-field error, raised before
    any call; with a code it is the rejection of the one verify call, the
    code being the status, other than 200, of the authority's answer and the
    detail holding the raw body of that answer. *)
Theorem endpoint_validation_errors (self : PkcsVerify.t) (request : Request)
    (auth : Authority) (calls : list requests.Call)
    (detail : value) (code : option Z) :
  result_of (PkcsVerify.post self request) auth calls
  = Raise (ValidationError detail code) ->
  (code = None
   ∧ detail = error_detail (VStr "pkcs7b64 field is required")
   ∧ calls_of (PkcsVerify.post self request) auth calls = calls)
  ∨ (∃ pkcs7 res,
       auth calls (verify_call pkcs7 (PkcsVerify.request self)) = Some res
       ∧ requests.status_code res ≠ 200
       ∧ code = Some (requests.status_code res)
       ∧ detail = error_detail (VStr (requests.text res))
       ∧ calls_of (PkcsVerify.post self request) auth calls
         = calls ++ [verify_call pkcs7 (PkcsVerify.request self)]).
Proof.
  unfold result_of, calls_of.
  destruct (data (PkcsVerify.request self)) as [| | | | | |body|] eqn:Hd;
    try (unfold PkcsVerify.post, bind; rewrite Hd; discriminate).
  destruct (body !! "pkcs7b64") as [p|] eqn:Hp.
  - destruct (is_None p) eqn:Hn.
    + rewrite (only_post_run _ _ _ _ _ Hd), Hp.
      destruct p; try discriminate Hn. cbn [fst snd].
      intros [= <- <-]. left. auto.
    + assert (Hne : p ≠ VNone) by (intros ->; discriminate Hn).
      rewrite (only_post_forwards _ request auth calls _ _ Hd Hp Hne).
      unfold bind. rewrite only_verify_run.
      destruct (auth calls (verify_call p (PkcsVerify.request self)))
        as [res|] eqn:Hc; [|discriminate].
      destruct (status_cases res) as [[Hs ->] | [Hs ->]].
      * destruct (requests.json res); discriminate.
      * cbn [fst snd]. intros [= <- <-]. right. exists p, res.
        split; [exact Hc | auto].
  - rewrite (only_post_run _ _ _ _ _ Hd), Hp. cbn [fst snd].
    intros [= <- <-]. left. auto.
Qed.

Lemma endpoint_validation_errors_witness :
  (@None Z = None
   ∧ error_detail (VStr "pkcs7b64 field is required")
     = error_detail (VStr "pkcs7b64 field is required")
   ∧ calls_of (PkcsVerify.post (PkcsVerify.mk bare_request) bare_request)
       (stub envelope_answer) [] = [])
  ∨ (∃ pkcs7 res,
       stub envelope_answer [] (verify_call pkcs7 bare_request) = Some res
       ∧ requests.status_code res ≠ 200
       ∧ None = Some (requests.status_code res)
       ∧ error_detail (VStr "pkcs7b64 field is required")
         = error_detail (VStr (requests.text res))
       ∧ calls_of (PkcsVerify.post (PkcsVerify.mk bare_request) bare_request)
           (stub envelope_answer) []
         = [] ++ [verify_call pkcs7 bare_request]).
Proof.
  apply (endpoint_validation_errors (PkcsVerify.mk bare_request) bare_request
           (stub envelope_answer) []
           (error_detail (VStr "pkcs7b64 field is required")) None).
  reflexivity.
Defined.
